(** * set-process-name: a shallow embedding of [src/index.js]

    The library sets the name of the running process as monitoring tools
    show it.  It detects the JavaScript runtime and the operating system,
    writes [process.title] (and, cosmetically, [process.argv0]), and on
    Linux under Bun or Deno calls [prctl(PR_SET_NAME, ...)] through the
    runtime's FFI.

    The embedding keeps the shape of the source: JavaScript strings are
    sequences of UTF-16 code units, the ambient globals ([Deno], [process])
    and the behaviour of the host facilities form a [Host], the mutable
    part ([process.title], [process.argv0], the cached Deno library handle)
    forms a [World], and the functions of the module run in a small
    state-and-exception monad with [try ... catch]. *)

From Stdlib Require Import ZArith List Bool String Ascii Lia.
Import ListNotations.
Local Open Scope Z_scope.

(* ================================================================== *)
(** ** JavaScript strings and values *)

(** A JavaScript string is a sequence of UTF-16 code units; [length] counts
    code units, as [String.prototype.length] does. *)
Definition JSString := list Z.

(** The code units of an ASCII literal of the source. *)
Definition js (s : string) : JSString :=
  map (fun a => Z.of_nat (nat_of_ascii a)) (list_ascii_of_string s).

(** [a === b] on two strings. *)
Definition str_eqb (a b : JSString) : bool :=
  if list_eq_dec Z.eq_dec a b then true else false.

Infix "===" := str_eqb (at level 70, no associativity).

(** Truthiness of a property that is either [undefined] or a string: the
    empty string is falsy. *)
Definition truthy (v : option JSString) : bool :=
  match v with
  | Some (_ :: _) => true
  | _ => false
  end.

(** The values a caller can pass where a name is expected. *)
Inductive JSValue :=
| VUndefined
| VNull
| VBoolean (b : bool)
| VNumber (n : Z)
| VString (s : JSString)
| VObject.

Inductive JSType := TUndefined | TObject | TBoolean | TNumber | TString.

(** The [typeof] operator ([typeof null] is ['object']). *)
Definition typeof (v : JSValue) : JSType :=
  match v with
  | VUndefined => TUndefined
  | VNull => TObject
  | VBoolean _ => TBoolean
  | VNumber _ => TNumber
  | VString _ => TString
  | VObject => TObject
  end.

(** [s.slice(start, end)] for integer arguments: negative indices count
    from the end, and both are clamped to the string. *)
Definition slice (s : JSString) (start stop : Z) : JSString :=
  let len := Z.of_nat (List.length s) in
  let from := if start <? 0 then Z.max (len + start) 0 else Z.min start len in
  let to := if stop <? 0 then Z.max (len + stop) 0 else Z.min stop len in
  firstn (Z.to_nat (Z.max (to - from) 0)) (skipn (Z.to_nat from) s).

(** *** UTF-8 encoding

    [Buffer.from(string)] and [TextEncoder.prototype.encode] both encode
    the string as UTF-8; a surrogate pair becomes one four-byte sequence
    and a lone surrogate becomes U+FFFD (EF BF BD). *)

Definition is_high_surrogate (c : Z) : bool := (0xD800 <=? c) && (c <=? 0xDBFF).
Definition is_low_surrogate (c : Z) : bool := (0xDC00 <=? c) && (c <=? 0xDFFF).

Definition replacement_bytes : list Z := [0xEF; 0xBF; 0xBD].

Definition utf8_2 (c : Z) : list Z :=
  [Z.lor 0xC0 (Z.shiftr c 6); Z.lor 0x80 (Z.land c 0x3F)].

Definition utf8_3 (c : Z) : list Z :=
  [Z.lor 0xE0 (Z.shiftr c 12);
   Z.lor 0x80 (Z.land (Z.shiftr c 6) 0x3F);
   Z.lor 0x80 (Z.land c 0x3F)].

Definition utf8_4 (hi lo : Z) : list Z :=
  let cp := 0x10000 + Z.shiftl (hi - 0xD800) 10 + (lo - 0xDC00) in
  [Z.lor 0xF0 (Z.shiftr cp 18);
   Z.lor 0x80 (Z.land (Z.shiftr cp 12) 0x3F);
   Z.lor 0x80 (Z.land (Z.shiftr cp 6) 0x3F);
   Z.lor 0x80 (Z.land cp 0x3F)].

Fixpoint utf8_encode (s : JSString) : list Z :=
  match s with
  | [] => []
  | c :: rest =>
      if c <? 0x80 then c :: utf8_encode rest
      else if c <? 0x800 then utf8_2 c ++ utf8_encode rest
      else if is_high_surrogate c then
        match rest with
        | d :: rest' =>
            if is_low_surrogate d then utf8_4 c d ++ utf8_encode rest'
            else replacement_bytes ++ utf8_encode rest
        | [] => replacement_bytes
        end
      else if is_low_surrogate c then replacement_bytes ++ utf8_encode rest
      else utf8_3 c ++ utf8_encode rest
  end.

(** A string all of whose code units are ASCII (one byte each in UTF-8). *)
Definition is_ascii (s : JSString) : bool :=
  forallb (fun c => (0 <=? c) && (c <? 0x80)) s.

(* ================================================================== *)
(** ** Errors, completions and the records of [index.d.ts] *)

Inductive JSError :=
| TypeError (message : string)
| HostError.

(** How the evaluation of an expression or a call ends. *)
Inductive Completion (A : Type) :=
| Normal (a : A)
| Throw (e : JSError).
Arguments Normal {A} a.
Arguments Throw {A} e.

(** [type Runtime = 'node' | 'bun' | 'deno' | 'unknown'] *)
Module Runtime.
Inductive t := node | bun | deno | unknown.

Definition eqb (a b : t) : bool :=
  match a, b with
  | node, node | bun, bun | deno, deno | unknown, unknown => true
  | _, _ => false
  end.
End Runtime.

(** [type Platform = 'linux' | 'darwin' | 'win32' | 'unknown'], the four
    values the documentation of [detectPlatform] announces. *)
Module Platform.
Inductive t := linux | darwin | win32 | unknown.

Definition to_string (p : t) : JSString :=
  match p with
  | linux => js "linux"
  | darwin => js "darwin"
  | win32 => js "win32"
  | unknown => js "unknown"
  end.

Definition of_string (s : JSString) : option t :=
  if s === js "linux" then Some linux
  else if s === js "darwin" then Some darwin
  else if s === js "win32" then Some win32
  else if s === js "unknown" then Some unknown
  else None.
End Platform.

(** [interface SetProcessNameResult]; [platform] holds whatever string
    [detectPlatform] returned. *)
Module SetProcessNameResult.
Record t := {
  success : bool;
  processTitle : option bool;
  prctl : option bool;
  runtime : Runtime.t;
  platform : JSString
}.

Definition with_processTitle (r : t) (v : option bool) : t :=
  {| success := success r; processTitle := v; prctl := prctl r;
     runtime := runtime r; platform := platform r |}.

Definition with_success (r : t) (v : bool) : t :=
  {| success := v; processTitle := processTitle r; prctl := prctl r;
     runtime := runtime r; platform := platform r |}.

Definition with_prctl (r : t) (v : option bool) : t :=
  {| success := success r; processTitle := processTitle r; prctl := v;
     runtime := runtime r; platform := platform r |}.
End SetProcessNameResult.

(** [interface Capabilities] *)
Module Capabilities.
Record t := {
  canSetTitle : bool;
  canSetPrctl : bool;
  runtime : Runtime.t;
  platform : JSString
}.
End Capabilities.

(* ================================================================== *)
(** ** The host: ambient globals and external facilities *)

(** [process.versions] *)
Module Versions.
Record t := { bun : option JSString; node : option JSString }.
End Versions.

(** The parts of the global [process] that the module only reads. *)
Module Process.
Record t := { versions : option Versions.t; platform : option JSString }.
End Process.

(** The global [Deno]: [build] is [Deno.build] and [os] is
    [Deno.build.os]. *)
Module DenoNS.
Record build_t := { os : JSString }.
Record t := { build : option build_t }.
End DenoNS.

(** What the execution context provides.  [None] for a global means that
    [typeof] of it is ['undefined'].  The facilities are external: the
    model fixes how the module calls them, not what they answer. *)
Record Host := {
  Deno : option DenoNS.t;
  process : option Process.t;
  (** [process.title = v]: from the current title and [v], the title read
      back afterwards, or an exception. *)
  title_assign : option JSString -> JSString -> Completion (option JSString);
  (** [process.argv0 = v] succeeds ([true]) or throws ([false]). *)
  argv0_assign : JSString -> bool;
  (** [await import('bun:ffi')] resolves. *)
  bun_ffi_import : bool;
  (** [dlopen('libc.so.6', ...)] of Bun returns a library. *)
  bun_dlopen : bool;
  (** [libc.close()] of Bun returns. *)
  bun_close : bool;
  (** [Deno.dlopen('libc.so.6', ...)] returns a library. *)
  deno_dlopen : bool;
  (** [symbols.prctl(opcode, buf)]: the status, or an exception. *)
  libc_prctl : Z -> list Z -> Completion Z
}.

Inductive LibHandle := Libc_so_6.

(** What the module asks of the facilities, in order. *)
Inductive Event :=
| TitleWrite (v : JSString)
| Argv0Write (v : JSString)
| Dlopen
| Prctl (opcode : Z) (buf : list Z)
| LibClose.

(** The mutable state: [process.title], [process.argv0], the module
    variable [denoLibcHandle], and the requests made so far. *)
Record World := {
  title : option JSString;
  argv0 : option JSString;
  denoLibcHandle : option LibHandle;
  trace : list Event
}.

Definition with_title (w : World) (t : option JSString) : World :=
  {| title := t; argv0 := argv0 w; denoLibcHandle := denoLibcHandle w;
     trace := trace w |}.

Definition with_argv0 (w : World) (a : option JSString) : World :=
  {| title := title w; argv0 := a; denoLibcHandle := denoLibcHandle w;
     trace := trace w |}.

Definition with_handle (w : World) (l : option LibHandle) : World :=
  {| title := title w; argv0 := argv0 w; denoLibcHandle := l;
     trace := trace w |}.

Definition with_event (w : World) (e : Event) : World :=
  {| title := title w; argv0 := argv0 w; denoLibcHandle := denoLibcHandle w;
     trace := trace w ++ [e] |}.

(* ================================================================== *)
(** ** The monad of the module's functions *)

(** A computation changes the world and ends normally or by a throw;
    what it did before throwing stays done. *)
Definition M (A : Type) : Type := World -> Completion A * World.

Definition ret {A} (a : A) : M A := fun w => (Normal a, w).

Definition throw {A} (e : JSError) : M A := fun w => (Throw e, w).

Definition bind {A B} (m : M A) (k : A -> M B) : M B :=
  fun w =>
    match m w with
    | (Normal a, w') => k a w'
    | (Throw e, w') => (Throw e, w')
    end.

(** [try { body } catch { handler }] *)
Definition try_catch {A} (body handler : M A) : M A :=
  fun w =>
    match body w with
    | (Normal a, w') => (Normal a, w')
    | (Throw _, w') => handler w'
    end.

Notation "x <- c ;; k" := (bind c (fun x => k))
  (at level 61, c at next level, right associativity).
Notation "c ;; k" := (bind c (fun _ => k))
  (at level 61, right associativity).

Definition emit (e : Event) : M unit := fun w => (Normal tt, with_event w e).

Definition lift {A} (c : Completion A) : M A := fun w => (c, w).

Definition guard (ok : bool) : M unit :=
  if ok then ret tt else throw HostError.

(** [process.title] *)
Definition process_title_get : M (option JSString) :=
  fun w => (Normal (title w), w).

(** [process.title = v] *)
Definition process_title_set (h : Host) (v : JSString) : M unit :=
  emit (TitleWrite v) ;;
  current <- process_title_get ;;
  t <- lift (title_assign h current v) ;;
  fun w => (Normal tt, with_title w t).

(** [process.argv0 = v] *)
Definition process_argv0_set (h : Host) (v : JSString) : M unit :=
  emit (Argv0Write v) ;;
  guard (argv0_assign h v) ;;
  fun w => (Normal tt, with_argv0 w (Some v)).

(** The module variable [denoLibcHandle]. *)
Definition get_denoLibcHandle : M (option LibHandle) :=
  fun w => (Normal (denoLibcHandle w), w).

Definition set_denoLibcHandle (l : option LibHandle) : M unit :=
  fun w => (Normal tt, with_handle w l).

(** [t === name] where [t] is [undefined] or a string. *)
Definition title_is (t : option JSString) (name : JSString) : bool :=
  match t with
  | Some s => s === name
  | None => false
  end.

(** [symbols.prctl(opcode, buf)] *)
Definition call_prctl (h : Host) (opcode : Z) (buf : list Z) : M Z :=
  emit (Prctl opcode buf) ;;
  lift (libc_prctl h opcode buf).

(* ================================================================== *)
(** ** The functions of [src/index.js] *)

(** [typeof process !== 'undefined' && process.versions &&
    process.versions.<field>] as a condition. *)
Definition process_version (h : Host)
    (field : Versions.t -> option JSString) : bool :=
  match process h with
  | Some p =>
      match Process.versions p with
      | Some v => truthy (field v)
      | None => false
      end
  | None => false
  end.

Definition detectRuntime (h : Host) : Runtime.t :=
  match Deno h with
  | Some _ => Runtime.deno
  | None =>
      if process_version h Versions.bun then Runtime.bun
      else if process_version h Versions.node then Runtime.node
      else Runtime.unknown
  end.

(** The second half of [detectPlatform]: Node.js and Bun. *)
Definition process_platform (h : Host) : JSString :=
  match process h with
  | Some p =>
      match Process.platform p with
      | Some (c :: s) => c :: s
      | _ => js "unknown"
      end
  | None => js "unknown"
  end.

Definition detectPlatform (h : Host) : JSString :=
  match Deno h with
  | Some d =>
      match DenoNS.build d with
      | Some b =>
          let os := DenoNS.os b in
          if os === js "linux" then js "linux"
          else if os === js "darwin" then js "darwin"
          else if os === js "windows" then js "win32"
          else js "unknown"
      | None => process_platform h
      end
  | None => process_platform h
  end.

Definition PR_SET_NAME : Z := 15.

(** The terminator that the template literal appends. *)
Definition NUL : JSString := [0].

Definition setProcessNameLinuxBunFFI (h : Host) (name : JSString) : M bool :=
  try_catch
    (guard (bun_ffi_import h) ;;
     emit Dlopen ;;
     guard (bun_dlopen h) ;;
     let truncatedName := slice name 0 15 in
     let buf := utf8_encode (truncatedName ++ NUL) in
     result <- call_prctl h PR_SET_NAME buf ;;
     emit LibClose ;;
     guard (bun_close h) ;;
     ret (result =? 0))
    (ret false).

Definition setProcessNameLinuxDenoFFI (h : Host) (name : JSString) : M bool :=
  try_catch
    (cached <- get_denoLibcHandle ;;
     match cached with
     | Some _ => ret tt
     | None =>
         emit Dlopen ;;
         guard (deno_dlopen h) ;;
         set_denoLibcHandle (Some Libc_so_6)
     end ;;
     let truncatedName := slice name 0 15 in
     let buf := utf8_encode (truncatedName ++ NUL) in
     result <- call_prctl h PR_SET_NAME buf ;;
     ret (result =? 0))
    (ret false).

Import SetProcessNameResult.

(** The asynchronous entry point.  The value is what the returned promise
    settles to: [Normal] when it is fulfilled, [Throw] when it is rejected;
    the single [await] is run to completion. *)
Definition setProcessName (h : Host) (name : JSValue) : M SetProcessNameResult.t :=
  match name with
  | VString name =>
      let runtime := detectRuntime h in
      let platform := detectPlatform h in
      let result :=
        {| success := false; processTitle := None; prctl := None;
           runtime := runtime; platform := platform |} in
      result <-
        match process h with
        | Some _ =>
            result <-
              try_catch
                (process_title_set h name ;;
                 t <- process_title_get ;;
                 let result := with_processTitle result (Some (title_is t name)) in
                 let result := with_success result (title_is t name) in
                 ret result)
                (ret (with_processTitle result (Some false))) ;;
            try_catch (process_argv0_set h name) (ret tt) ;;
            ret result
        | None => ret result
        end ;;
      if platform === js "linux" then
        if Runtime.eqb runtime Runtime.bun then
          p <- setProcessNameLinuxBunFFI h name ;;
          let result := with_prctl result (Some p) in
          ret (with_success result (success result || p))
        else if Runtime.eqb runtime Runtime.deno then
          p <- setProcessNameLinuxDenoFFI h name ;;
          let result := with_prctl result (Some p) in
          ret (with_success result (success result || p))
        else ret result
      else ret result
  | _ => throw (TypeError "Process name must be a string")
  end.

(** The synchronous entry point. *)
Definition setProcessNameSync (h : Host) (name : JSValue) : M SetProcessNameResult.t :=
  match name with
  | VString name =>
      let runtime := detectRuntime h in
      let platform := detectPlatform h in
      let result :=
        {| success := false; processTitle := None; prctl := None;
           runtime := runtime; platform := platform |} in
      result <-
        match process h with
        | Some _ =>
            result <-
              try_catch
                (process_title_set h name ;;
                 t <- process_title_get ;;
                 let result := with_processTitle result (Some (title_is t name)) in
                 let result := with_success result (title_is t name) in
                 ret result)
                (ret (with_processTitle result (Some false))) ;;
            try_catch (process_argv0_set h name) (ret tt) ;;
            ret result
        | None => ret result
        end ;;
      if (platform === js "linux") && Runtime.eqb runtime Runtime.deno then
        p <- setProcessNameLinuxDenoFFI h name ;;
        let result := with_prctl result (Some p) in
        ret (with_success result (success result || p))
      else ret result
  | _ => throw (TypeError "Process name must be a string")
  end.

Definition getProcessName (h : Host) (w : World) : option JSString :=
  match process h with
  | Some _ => if truthy (title w) then title w else None
  | None => None
  end.

Definition getCapabilities (h : Host) (w : World) : Capabilities.t :=
  let runtime := detectRuntime h in
  let platform := detectPlatform h in
  {| Capabilities.canSetTitle :=
       match process h with
       | Some _ => match title w with Some _ => true | None => false end
       | None => false
       end;
     Capabilities.canSetPrctl :=
       (platform === js "linux")
       && (Runtime.eqb runtime Runtime.node || Runtime.eqb runtime Runtime.bun);
     Capabilities.runtime := runtime;
     Capabilities.platform := platform |}.

(* ================================================================== *)
(** ** Sample execution contexts *)

Module Samples.

(** A title facility that stores what it is given. *)
Definition verbatim_title (_ : option JSString) (v : JSString)
  : Completion (option JSString) := Normal (Some v).

(** Node.js: no [Deno], no FFI. *)
Definition node_on (platform : string) : Host :=
  {| Deno := None;
     process :=
       Some {| Process.versions :=
                 Some {| Versions.bun := None;
                         Versions.node := Some (js "20.11.0") |};
               Process.platform := Some (js platform) |};
     title_assign := verbatim_title;
     argv0_assign := fun _ => true;
     bun_ffi_import := false;
     bun_dlopen := false;
     bun_close := false;
     deno_dlopen := false;
     libc_prctl := fun _ _ => Throw HostError |}.

(** Bun: [process.versions.bun] is set, [bun:ffi] loads and [prctl]
    answers 0. *)
Definition bun_on (platform : string) : Host :=
  {| Deno := None;
     process :=
       Some {| Process.versions :=
                 Some {| Versions.bun := Some (js "1.1.0");
                         Versions.node := Some (js "22.6.0") |};
               Process.platform := Some (js platform) |};
     title_assign := verbatim_title;
     argv0_assign := fun _ => true;
     bun_ffi_import := true;
     bun_dlopen := true;
     bun_close := true;
     deno_dlopen := false;
     libc_prctl := fun _ _ => Normal 0 |}.

(** Deno with its Node.js compatibility globals; [os] is
    [Deno.build.os]. *)
Definition deno_on (os : string) : Host :=
  {| Deno := Some {| DenoNS.build := Some {| DenoNS.os := js os |} |};
     process :=
       Some {| Process.versions :=
                 Some {| Versions.bun := None;
                         Versions.node := Some (js "22.0.0") |};
               Process.platform := Some (js os) |};
     title_assign := verbatim_title;
     argv0_assign := fun _ => true;
     bun_ffi_import := false;
     bun_dlopen := false;
     bun_close := false;
     deno_dlopen := true;
     libc_prctl := fun _ _ => Normal 0 |}.

(** A fresh process. *)
Definition start : World :=
  {| title := Some (js "node"); argv0 := Some (js "node");
     denoLibcHandle := None; trace := [] |}.

End Samples.

(** [h] with another behaviour of [process.argv0 = v]. *)
Definition with_argv0_assign (h : Host) (f : JSString -> bool) : Host :=
  {| Deno := Deno h; process := process h; title_assign := title_assign h;
     argv0_assign := f; bun_ffi_import := bun_ffi_import h;
     bun_dlopen := bun_dlopen h; bun_close := bun_close h;
     deno_dlopen := deno_dlopen h; libc_prctl := libc_prctl h |}.

(** The runtimes for which the module has an FFI route to [prctl]
    ([setProcessNameLinuxBunFFI], [setProcessNameLinuxDenoFFI]). *)
Definition has_prctl_bridge (r : Runtime.t) : bool :=
  match r with
  | Runtime.bun | Runtime.deno => true
  | _ => false
  end.

(** [o] is [Some true]. *)
Definition some_true (o : option bool) : bool :=
  match o with
  | Some true => true
  | _ => false
  end.

(** [o] is not [null]. *)
Definition attempted (o : option bool) : bool :=
  match o with
  | Some _ => true
  | None => false
  end.

(** The new requests of a run that took the world from [w] to [w']. *)
Definition requests (w w' : World) (evs : list Event) : Prop :=
  trace w' = trace w ++ evs.

(** The buffer that either applier builds for [name]: the first 15 code
    units and the terminator, encoded. *)
Definition prctl_buffer (name : JSString) : list Z :=
  utf8_encode (slice name 0 15 ++ NUL).

Definition is_prctl (e : Event) : bool :=
  match e with
  | Prctl _ _ => true
  | _ => false
  end.

(** A request to the native facility: loading the library, calling
    [prctl], closing the library. *)
Definition is_native (e : Event) : bool :=
  match e with
  | Dlopen | Prctl _ _ | LibClose => true
  | TitleWrite _ | Argv0Write _ => false
  end.

(** The requests of the first step of both entry points: the title and
    the cosmetic [argv0], when there is a [process]. *)
Definition title_requests (h : Host) (name : JSString) : list Event :=
  match process h with
  | Some _ => [TitleWrite name; Argv0Write name]
  | None => []
  end.

(** More sample contexts: hosts whose facilities fail. *)
Module FailingSamples.

(** Deno without the permission to load libraries: [Deno.dlopen]
    throws. *)
Definition deno_without_ffi : Host :=
  {| Deno := Deno (Samples.deno_on "linux");
     process := process (Samples.deno_on "linux");
     title_assign := Samples.verbatim_title;
     argv0_assign := fun _ => true;
     bun_ffi_import := false;
     bun_dlopen := false;
     bun_close := false;
     deno_dlopen := false;
     libc_prctl := fun _ _ => Throw HostError |}.

(** Bun on Linux whose [prctl] binding throws. *)
Definition bun_prctl_throws : Host :=
  {| Deno := None;
     process := process (Samples.bun_on "linux");
     title_assign := Samples.verbatim_title;
     argv0_assign := fun _ => true;
     bun_ffi_import := true;
     bun_dlopen := true;
     bun_close := true;
     deno_dlopen := false;
     libc_prctl := fun _ _ => Throw HostError |}.

(** Node.js on Linux with a title facility that cuts the title to 4 code
    units. *)
Definition node_short_titles : Host :=
  {| Deno := None;
     process := process (Samples.node_on "linux");
     title_assign := fun _ v => Normal (Some (firstn 4 v));
     argv0_assign := fun _ => false;
     bun_ffi_import := false;
     bun_dlopen := false;
     bun_close := false;
     deno_dlopen := false;
     libc_prctl := fun _ _ => Throw HostError |}.

(** Deno on Linux after the permission to load libraries has been taken
    away: [Deno.dlopen] throws, [prctl] still answers 0 through a library
    loaded before. *)
Definition deno_ffi_revoked : Host :=
  {| Deno := Deno (Samples.deno_on "linux");
     process := process (Samples.deno_on "linux");
     title_assign := Samples.verbatim_title;
     argv0_assign := fun _ => true;
     bun_ffi_import := false;
     bun_dlopen := false;
     bun_close := false;
     deno_dlopen := false;
     libc_prctl := fun _ _ => Normal 0 |}.

End FailingSamples.

(** A [Host] fixes what the facilities answer during one call; a later
    call, which they may answer differently, runs under a [Host] of its
    own.  [same_answers h1 h2 w1 w2 name]: the facilities of [h2] answer a
    call for [name] started in [w2] as those of [h1] answer one started in
    [w1]: same globals, same answer to the title write, to the import of
    [bun:ffi], to [dlopen] and [close] of Bun, and to [prctl] for the
    buffer of the name.  [Deno.dlopen] is not part of it. *)
Definition same_answers (h1 h2 : Host) (w1 w2 : World) (name : JSString) : Prop :=
  Deno h2 = Deno h1
  /\ process h2 = process h1
  /\ title_assign h2 (title w2) name = title_assign h1 (title w1) name
  /\ bun_ffi_import h2 = bun_ffi_import h1
  /\ bun_dlopen h2 = bun_dlopen h1
  /\ bun_close h2 = bun_close h1
  /\ libc_prctl h2 PR_SET_NAME (prctl_buffer name)
     = libc_prctl h1 PR_SET_NAME (prctl_buffer name).

(* ================================================================== *)
(** ** Proof tools *)

Ltac unfold_monad :=
  unfold process_title_set, process_argv0_set, process_title_get,
    get_denoLibcHandle, set_denoLibcHandle, call_prctl, guard, emit, lift,
    try_catch, bind, ret, throw in *.

(** Split on the scrutinee of an innermost [match] of the goal. *)
Ltac split_match :=
  match goal with
  | |- context [match ?x with _ => _ end] =>
      lazymatch x with
      | context [match _ with _ => _ end] => fail
      | _ => first [ is_var x; destruct x | destruct x eqn:? ]
      end
  end.

Ltac run := unfold_monad; cbn; repeat (split_match; cbn).

Lemma str_eqb_eq (a b : JSString) : (a === b) = true <-> a = b.
Proof.
  unfold str_eqb. destruct (list_eq_dec Z.eq_dec a b); split; congruence.
Qed.

Lemma str_eqb_refl (a : JSString) : (a === a) = true.
Proof. now apply str_eqb_eq. Qed.

Lemma runtime_eqb_eq (a b : Runtime.t) : Runtime.eqb a b = true <-> a = b.
Proof. destruct a, b; cbn; split; congruence. Qed.

Lemma typeof_string (v : JSValue) :
  typeof v = TString <-> exists s, v = VString s.
Proof.
  split.
  - destruct v; cbn; try discriminate. intros _. now exists s.
  - intros [s ->]. reflexivity.
Qed.

(** *** The two native appliers always return a boolean *)

Lemma setProcessNameLinuxBunFFI_returns (h : Host) (name : JSString) (w : World) :
  exists b w',
    setProcessNameLinuxBunFFI h name w = (Normal b, w')
    /\ title w' = title w
    /\ denoLibcHandle w' = denoLibcHandle w.
Proof.
  unfold setProcessNameLinuxBunFFI. run; eauto.
Qed.

Lemma setProcessNameLinuxDenoFFI_returns (h : Host) (name : JSString) (w : World) :
  exists b w',
    setProcessNameLinuxDenoFFI h name w = (Normal b, w')
    /\ title w' = title w.
Proof.
  unfold setProcessNameLinuxDenoFFI. run; eauto.
Qed.

Lemma title_is_true (t : option JSString) (name : JSString) :
  title_is t name = true -> t = Some name.
Proof.
  destruct t as [s|]; cbn; [|discriminate].
  intros E. apply str_eqb_eq in E. now subst.
Qed.

(** Close a goal about the record and the world a run ends with. *)
Ltac finish :=
  do 2 eexists; split; [reflexivity|]; cbn;
  repeat match goal with
         | |- context [title_is ?t ?n] =>
             let E := fresh "E" in
             destruct (title_is t n) eqn:E;
             [apply title_is_true in E|]
         end;
  cbn; repeat split; intros;
  try discriminate; try congruence; auto;
  repeat match goal with
         | |- context [?a =? ?b] => destruct (a =? b)
         end;
  cbn; try discriminate; try congruence; auto.

(** *** What a call with a string does: the asynchronous entry point *)

Lemma setProcessName_string (h : Host) (s : JSString) (w : World) :
  exists r w',
    setProcessName h (VString s) w = (Normal r, w')
    /\ runtime r = detectRuntime h
    /\ platform r = detectPlatform h
    /\ attempted (prctl r)
       = (detectPlatform h === js "linux") && has_prctl_bridge (detectRuntime h)
    /\ success r = some_true (processTitle r) || some_true (prctl r)
    /\ attempted (processTitle r)
       = match process h with Some _ => true | None => false end
    /\ (processTitle r = Some true -> title w' = Some s).
Proof.
  unfold setProcessName.
  destruct (detectPlatform h === js "linux") eqn:Hp;
    destruct (detectRuntime h) eqn:Hr; cbn [Runtime.eqb has_prctl_bridge andb];
    unfold setProcessNameLinuxBunFFI, setProcessNameLinuxDenoFFI;
    destruct (process h) eqn:Hproc; run; finish.
Qed.

(** *** ... and the synchronous one *)

Lemma setProcessNameSync_string (h : Host) (s : JSString) (w : World) :
  exists r w',
    setProcessNameSync h (VString s) w = (Normal r, w')
    /\ runtime r = detectRuntime h
    /\ platform r = detectPlatform h
    /\ attempted (prctl r)
       = (detectPlatform h === js "linux")
         && Runtime.eqb (detectRuntime h) Runtime.deno
    /\ success r = some_true (processTitle r) || some_true (prctl r)
    /\ attempted (processTitle r)
       = match process h with Some _ => true | None => false end
    /\ (processTitle r = Some true -> title w' = Some s).
Proof.
  unfold setProcessNameSync.
  destruct (detectPlatform h === js "linux") eqn:Hp;
    destruct (detectRuntime h) eqn:Hr; cbn [Runtime.eqb andb];
    unfold setProcessNameLinuxDenoFFI;
    destruct (process h) eqn:Hproc; run; finish.
Qed.

Lemma attempted_not_none (o : option bool) : attempted o = true <-> o <> None.
Proof. destruct o; cbn; split; congruence. Qed.

Lemma has_prctl_bridge_spec (r : Runtime.t) :
  has_prctl_bridge r = true <-> r = Runtime.bun \/ r = Runtime.deno.
Proof. destruct r; cbn; intuition congruence. Qed.

(** A call with a string determines its outcome. *)
Lemma setProcessName_inv (h : Host) (s : JSString) (w w' : World) (r : t) :
  setProcessName h (VString s) w = (Normal r, w') ->
  runtime r = detectRuntime h
  /\ platform r = detectPlatform h
  /\ attempted (prctl r)
     = (detectPlatform h === js "linux") && has_prctl_bridge (detectRuntime h)
  /\ success r = some_true (processTitle r) || some_true (prctl r)
  /\ attempted (processTitle r)
     = match process h with Some _ => true | None => false end
  /\ (processTitle r = Some true -> title w' = Some s).
Proof.
  intros H. destruct (setProcessName_string h s w) as (r0 & w0 & E & P).
  rewrite E in H. now inversion H; subst.
Qed.

Lemma setProcessNameSync_inv (h : Host) (s : JSString) (w w' : World) (r : t) :
  setProcessNameSync h (VString s) w = (Normal r, w') ->
  runtime r = detectRuntime h
  /\ platform r = detectPlatform h
  /\ attempted (prctl r)
     = (detectPlatform h === js "linux")
       && Runtime.eqb (detectRuntime h) Runtime.deno
  /\ success r = some_true (processTitle r) || some_true (prctl r)
  /\ attempted (processTitle r)
     = match process h with Some _ => true | None => false end
  /\ (processTitle r = Some true -> title w' = Some s).
Proof.
  intros H. destruct (setProcessNameSync_string h s w) as (r0 & w0 & E & P).
  rewrite E in H. now inversion H; subst.
Qed.

(** A call that returns a record was given a string. *)
Lemma setProcessName_normal_string (h : Host) (v : JSValue) (w w' : World) (r : t) :
  setProcessName h v w = (Normal r, w') -> exists s, v = VString s.
Proof. destruct v; cbn; try discriminate. eauto. Qed.

Lemma setProcessNameSync_normal_string (h : Host) (v : JSValue) (w w' : World) (r : t) :
  setProcessNameSync h v w = (Normal r, w') -> exists s, v = VString s.
Proof. destruct v; cbn; try discriminate. eauto. Qed.

(* ================================================================== *)
(** ** Argument validation *)

(** C4.  A value that is not a string makes both [setProcessName] and
    [setProcessNameSync] throw the [TypeError] and leaves the world as it
    was: no facility has been asked anything and no record is produced.
    A string, the empty one included, never makes either of them throw:
    both return a record. *)
Theorem type_error_only_for_non_strings (h : Host) (w : World) (v : JSValue) :
  (typeof v <> TString ->
     setProcessName h v w
     = (Throw (TypeError "Process name must be a string"), w)
     /\ setProcessNameSync h v w
        = (Throw (TypeError "Process name must be a string"), w))
  /\ (typeof v = TString ->
     (exists r w', setProcessName h v w = (Normal r, w'))
     /\ (exists r w', setProcessNameSync h v w = (Normal r, w'))).
Proof.
  split.
  - destruct v; cbn; intros H; try (split; reflexivity). now elim H.
  - intros H. apply typeof_string in H as [s ->]. split.
    + destruct (setProcessName_string h s w) as (r & w' & E & _). eauto.
    + destruct (setProcessNameSync_string h s w) as (r & w' & E & _). eauto.
Qed.

Lemma type_error_only_for_non_strings_witness :
  (setProcessName (Samples.node_on "linux") (VNumber 123) Samples.start
   = (Throw (TypeError "Process name must be a string"), Samples.start)
   /\ setProcessNameSync (Samples.node_on "linux") (VNumber 123) Samples.start
      = (Throw (TypeError "Process name must be a string"), Samples.start))
  /\ ((exists r w',
         setProcessName (Samples.bun_on "linux") (VString []) Samples.start
         = (Normal r, w'))
      /\ (exists r w',
            setProcessNameSync (Samples.bun_on "linux") (VString []) Samples.start
            = (Normal r, w'))).
Proof.
  split.
  - apply (proj1 (type_error_only_for_non_strings
                    (Samples.node_on "linux") Samples.start (VNumber 123))).
    cbn. discriminate.
  - apply (proj2 (type_error_only_for_non_strings
                    (Samples.bun_on "linux") Samples.start (VString []))).
    reflexivity.
Defined.

(* ================================================================== *)
(** ** The [success] field *)

(** C5.  Whenever [setProcessName] or [setProcessNameSync] returns a
    record, its [success] is the disjunction of "[processTitle] is
    [Some true]" and "[prctl] is [Some true]"; so when neither mechanism
    reports [Some true] (each reports [Some false] or was not attempted),
    [success] is [false]. *)
Theorem success_is_or_of_mechanisms
    (h : Host) (w w' : World) (v : JSValue) (r : t) :
  setProcessName h v w = (Normal r, w')
  \/ setProcessNameSync h v w = (Normal r, w') ->
  success r = some_true (processTitle r) || some_true (prctl r)
  /\ (processTitle r <> Some true -> prctl r <> Some true -> success r = false).
Proof.
  intros H.
  assert (E : success r = some_true (processTitle r) || some_true (prctl r)).
  { destruct H as [H|H].
    - destruct (setProcessName_normal_string _ _ _ _ _ H) as [s ->].
      now apply setProcessName_inv in H.
    - destruct (setProcessNameSync_normal_string _ _ _ _ _ H) as [s ->].
      now apply setProcessNameSync_inv in H. }
  split; [exact E|].
  intros Ht Hp. rewrite E.
  destruct (processTitle r) as [[|]|], (prctl r) as [[|]|]; cbn; congruence.
Qed.

Lemma success_is_or_of_mechanisms_witness :
  exists r w',
    setProcessName (Samples.bun_on "linux") (VString (js "my-service"))
      Samples.start = (Normal r, w')
    /\ success r = some_true (processTitle r) || some_true (prctl r)
    /\ (processTitle r <> Some true -> prctl r <> Some true -> success r = false).
Proof.
  do 2 eexists. split; [reflexivity|].
  eapply (success_is_or_of_mechanisms (Samples.bun_on "linux") Samples.start
            _ (VString (js "my-service"))).
  left. reflexivity.
Defined.

(* ================================================================== *)
(** ** When the native mechanism is attempted *)

(** C2, as stated, fails for the synchronous entry point: under Bun on
    Linux the platform is Linux and the runtime is one the module reaches
    [prctl] from, yet [setProcessNameSync] leaves [prctl] at [None]. *)
Lemma sync_on_bun_linux_leaves_prctl_none :
  exists r w',
    setProcessNameSync (Samples.bun_on "linux") (VString (js "my-service"))
      Samples.start = (Normal r, w')
    /\ ~ (prctl r <> None <->
          detectPlatform (Samples.bun_on "linux") = js "linux"
          /\ has_prctl_bridge (detectRuntime (Samples.bun_on "linux")) = true).
Proof.
  do 2 eexists. split; [reflexivity|].
  cbn. intros [_ H]. apply H; [|reflexivity]. split; reflexivity.
Qed.

(** C2, amended.  [setProcessName] sets [prctl] to [Some _] exactly when
    the detected platform is ['linux'] and the runtime is Bun or Deno;
    [setProcessNameSync] does so exactly when the platform is ['linux'] and
    the runtime is Deno (under Bun it makes no native call).  On every
    other platform, darwin, win32 and unknown included, [prctl] is [None]
    on both entry points. *)
Theorem prctl_attempt_policy (h : Host) (w : World) (s : JSString) :
  (forall r w',
      setProcessName h (VString s) w = (Normal r, w') ->
      (prctl r <> None <->
       detectPlatform h = js "linux"
       /\ (detectRuntime h = Runtime.bun \/ detectRuntime h = Runtime.deno))
      /\ (detectPlatform h <> js "linux" -> prctl r = None))
  /\ (forall r w',
      setProcessNameSync h (VString s) w = (Normal r, w') ->
      (prctl r <> None <->
       detectPlatform h = js "linux" /\ detectRuntime h = Runtime.deno)
      /\ (detectPlatform h <> js "linux" -> prctl r = None)).
Proof.
  split; intros r w' H.
  - apply setProcessName_inv in H as (_ & _ & Hp & _).
    rewrite <- attempted_not_none, Hp, andb_true_iff, str_eqb_eq,
      has_prctl_bridge_spec.
    split; [tauto|]. intros Hn.
    destruct (prctl r); [|reflexivity].
    cbn in Hp. symmetry in Hp.
    apply andb_true_iff in Hp as [Hp _]. apply str_eqb_eq in Hp. tauto.
  - apply setProcessNameSync_inv in H as (_ & _ & Hp & _).
    rewrite <- attempted_not_none, Hp, andb_true_iff, str_eqb_eq,
      runtime_eqb_eq.
    split; [tauto|]. intros Hn.
    destruct (prctl r); [|reflexivity].
    cbn in Hp. symmetry in Hp.
    apply andb_true_iff in Hp as [Hp _]. apply str_eqb_eq in Hp. tauto.
Qed.

Lemma prctl_attempt_policy_witness :
  (exists r w',
      setProcessName (Samples.deno_on "linux") (VString (js "my-service"))
        Samples.start = (Normal r, w')
      /\ prctl r <> None)
  /\ (exists r w',
      setProcessNameSync (Samples.node_on "darwin") (VString (js "my-service"))
        Samples.start = (Normal r, w')
      /\ prctl r = None).
Proof.
  split; do 2 eexists; (split; [reflexivity|]).
  - apply (proj1 (prctl_attempt_policy (Samples.deno_on "linux") Samples.start
                    (js "my-service"))
             _ _ eq_refl).
    split; [reflexivity | right; reflexivity].
  - apply (proj2 (prctl_attempt_policy (Samples.node_on "darwin") Samples.start
                    (js "my-service"))
             _ _ eq_refl).
    cbn. discriminate.
Defined.

(* ================================================================== *)
(** ** [getCapabilities] against the attempt policy *)

(** C1, as stated, fails under Node.js on Linux: [canSetPrctl] is [true]
    and [setProcessName] leaves [prctl] at [None]. *)
Lemma capabilities_diverge_on_node_linux :
  exists r w',
    setProcessName (Samples.node_on "linux") (VString (js "my-service"))
      Samples.start = (Normal r, w')
    /\ ~ (Capabilities.canSetPrctl
            (getCapabilities (Samples.node_on "linux") Samples.start) = true
          <-> prctl r <> None).
Proof.
  do 2 eexists. split; [reflexivity|].
  cbn. intros [H _]. now apply H.
Qed.

(** C1, amended.  In every environment whose runtime is not Deno,
    [canSetPrctl] is [true] exactly when [setProcessName] sets [prctl] to
    [Some _] or the environment is Node.js on Linux, where [prctl] stays
    [None] because the module leaves the native call to [process.title];
    so under Bun and under an unknown runtime the query and the attempt
    policy agree.  On a platform other than Linux, whatever the runtime,
    [canSetPrctl] is [false] and [prctl] is [None]. *)
Theorem capabilities_against_attempt_policy
    (h : Host) (w w' : World) (s : JSString) (r : t) :
  setProcessName h (VString s) w = (Normal r, w') ->
  (detectRuntime h <> Runtime.deno ->
     (Capabilities.canSetPrctl (getCapabilities h w) = true <->
      prctl r <> None
      \/ (detectPlatform h = js "linux" /\ detectRuntime h = Runtime.node)))
  /\ (detectPlatform h <> js "linux" ->
      Capabilities.canSetPrctl (getCapabilities h w) = false /\ prctl r = None).
Proof.
  intros H. apply setProcessName_inv in H as (_ & _ & Hp & _).
  unfold getCapabilities. cbn [Capabilities.canSetPrctl].
  split.
  - intros Hd.
    rewrite <- attempted_not_none, Hp.
    rewrite !andb_true_iff, str_eqb_eq, orb_true_iff, !runtime_eqb_eq,
      has_prctl_bridge_spec.
    intuition congruence.
  - intros Hn.
    destruct (detectPlatform h === js "linux") eqn:E.
    + apply str_eqb_eq in E. contradiction.
    + cbn in *. split; [reflexivity|].
      destruct (prctl r); [discriminate | reflexivity].
Qed.

Lemma capabilities_against_attempt_policy_witness :
  exists r w',
    setProcessName (Samples.bun_on "linux") (VString (js "my-service"))
      Samples.start = (Normal r, w')
    /\ (Capabilities.canSetPrctl
          (getCapabilities (Samples.bun_on "linux") Samples.start) = true <->
        prctl r <> None
        \/ (detectPlatform (Samples.bun_on "linux") = js "linux"
            /\ detectRuntime (Samples.bun_on "linux") = Runtime.node)).
Proof.
  do 2 eexists. split; [reflexivity|].
  eapply (proj1 (capabilities_against_attempt_policy
                   (Samples.bun_on "linux") Samples.start _
                   (js "my-service") _ eq_refl)).
  cbn. discriminate.
Defined.

(* ================================================================== *)
(** ** Reading the name back *)

(** C6, as stated, fails for the empty name: on a host that stores the
    title it is given, [setProcessName] of the empty string reports
    [processTitle] as [Some true] and [getProcessName()] then returns
    [None], not [Some] of the empty string. *)
Lemma empty_name_is_not_read_back :
  exists r w',
    setProcessName (Samples.node_on "linux") (VString []) Samples.start
    = (Normal r, w')
    /\ processTitle r = Some true
    /\ getProcessName (Samples.node_on "linux") w' <> Some [].
Proof.
  do 2 eexists. split; [reflexivity|]. split; [reflexivity|].
  cbn. discriminate.
Qed.

(** C6, amended.  For every non-empty string [n], if [setProcessName(n)]
    reports [processTitle] as [Some true], then [getProcessName()] called
    right after it returns [Some n]. *)
Theorem round_trip_of_non_empty_name
    (h : Host) (w w' : World) (n : JSString) (r : t) :
  n <> [] ->
  setProcessName h (VString n) w = (Normal r, w') ->
  processTitle r = Some true ->
  getProcessName h w' = Some n.
Proof.
  intros Hn H Ht.
  apply setProcessName_inv in H as (_ & _ & _ & _ & Hproc & Htitle).
  rewrite Ht in Hproc. cbn in Hproc.
  unfold getProcessName.
  destruct (process h); [|discriminate].
  rewrite (Htitle Ht).
  destruct n; [congruence | reflexivity].
Qed.

Lemma round_trip_of_non_empty_name_witness :
  exists r w',
    setProcessName (Samples.node_on "linux") (VString (js "my-service"))
      Samples.start = (Normal r, w')
    /\ getProcessName (Samples.node_on "linux") w' = Some (js "my-service").
Proof.
  do 2 eexists. split; [reflexivity|].
  eapply (round_trip_of_non_empty_name (Samples.node_on "linux")
            Samples.start _ (js "my-service")).
  - cbn. discriminate.
  - reflexivity.
  - reflexivity.
Defined.

(** C10.  When the current title is the empty string, [getProcessName()]
    returns [None], as it does when there is no [process] at all; this is
    the case right after a [setProcessName] of the empty string that reported
    [processTitle] as [Some true]. *)
Theorem empty_title_reads_as_none (h : Host) (w : World) :
  (title w = Some [] -> getProcessName h w = None)
  /\ (forall r w',
        setProcessName h (VString []) w = (Normal r, w') ->
        processTitle r = Some true ->
        getProcessName h w' = None).
Proof.
  assert (A : forall w0, title w0 = Some [] -> getProcessName h w0 = None).
  { intros w0 E. unfold getProcessName. rewrite E. now destruct (process h). }
  split; [apply A|].
  intros r w' H Ht. apply A.
  apply setProcessName_inv in H as (_ & _ & _ & _ & _ & Htitle). auto.
Qed.

Lemma empty_title_reads_as_none_witness :
  getProcessName (Samples.node_on "linux")
    {| title := Some []; argv0 := None; denoLibcHandle := None; trace := [] |}
  = None
  /\ exists r w',
      setProcessName (Samples.node_on "linux") (VString []) Samples.start
      = (Normal r, w')
      /\ processTitle r = Some true
      /\ getProcessName (Samples.node_on "linux") w' = None.
Proof.
  split.
  - apply (proj1 (empty_title_reads_as_none (Samples.node_on "linux") _)).
    reflexivity.
  - do 2 eexists. split; [reflexivity|]. split; [reflexivity|].
    eapply (proj2 (empty_title_reads_as_none (Samples.node_on "linux")
                     Samples.start)); reflexivity.
Defined.

(* ================================================================== *)
(** ** The two entry points side by side *)

(** A run whose world ends with the requests [evs] appended. *)
Ltac solve_requests :=
  unfold requests; cbn;
  first [ symmetry; apply app_nil_r
        | rewrite <- ?app_assoc; cbn; reflexivity ].

(** C7.  Unless the platform is Linux and the runtime is Bun,
    [setProcessNameSync] and [setProcessName] do the same thing on every
    input: same record (or same throw) and same final world.  On Linux
    under Bun, for every string, both return a record; the synchronous one
    makes no native request and leaves [prctl] at [None], where the
    asynchronous one reports [Some b]; the other fields agree, [success]
    up to the contribution [b] of the native step. *)
Theorem sync_differs_from_async_only_on_bun_linux
    (h : Host) (w : World) (v : JSValue) :
  (~ (detectPlatform h = js "linux" /\ detectRuntime h = Runtime.bun) ->
     setProcessNameSync h v w = setProcessName h v w)
  /\ (detectPlatform h = js "linux" -> detectRuntime h = Runtime.bun ->
      forall s, v = VString s ->
      exists rs ws ra wa b evs,
        setProcessNameSync h v w = (Normal rs, ws)
        /\ setProcessName h v w = (Normal ra, wa)
        /\ prctl rs = None
        /\ prctl ra = Some b
        /\ processTitle rs = processTitle ra
        /\ runtime rs = runtime ra
        /\ platform rs = platform ra
        /\ success ra = success rs || b
        /\ requests w ws evs
        /\ forallb (fun e => negb (is_prctl e)) evs = true).
Proof.
  split.
  - intros Hn. destruct v; try reflexivity.
    unfold setProcessNameSync, setProcessName.
    destruct (detectPlatform h === js "linux") eqn:Hp;
      destruct (detectRuntime h) eqn:Hr; cbn [Runtime.eqb andb];
      try reflexivity.
    apply str_eqb_eq in Hp. tauto.
  - intros Hp Hr s ->.
    unfold setProcessNameSync, setProcessName.
    rewrite Hp, Hr, str_eqb_refl. cbn [Runtime.eqb andb].
    unfold setProcessNameLinuxBunFFI.
    destruct (process h) eqn:Hproc; run;
      do 6 eexists;
      (split; [reflexivity|]); (split; [reflexivity|]); cbn;
      repeat match goal with
             | |- context [title_is ?t ?n] => destruct (title_is t n)
             end;
      cbn;
      (split; [reflexivity|]); (split; [reflexivity|]);
      (split; [reflexivity|]); (split; [reflexivity|]);
      (split; [reflexivity|]); (split; [reflexivity|]);
      (split; [solve_requests | reflexivity]).
Qed.

Lemma sync_differs_from_async_only_on_bun_linux_witness :
  setProcessNameSync (Samples.deno_on "linux") (VString (js "my-service"))
    Samples.start
  = setProcessName (Samples.deno_on "linux") (VString (js "my-service"))
      Samples.start
  /\ exists rs ws ra wa b evs,
      setProcessNameSync (Samples.bun_on "linux") (VString (js "my-service"))
        Samples.start = (Normal rs, ws)
      /\ setProcessName (Samples.bun_on "linux") (VString (js "my-service"))
           Samples.start = (Normal ra, wa)
      /\ prctl rs = None
      /\ prctl ra = Some b
      /\ processTitle rs = processTitle ra
      /\ runtime rs = runtime ra
      /\ platform rs = platform ra
      /\ success ra = success rs || b
      /\ requests Samples.start ws evs
      /\ forallb (fun e => negb (is_prctl e)) evs = true.
Proof.
  split.
  - apply (proj1 (sync_differs_from_async_only_on_bun_linux
                    (Samples.deno_on "linux") Samples.start
                    (VString (js "my-service")))).
    cbn. intros [_ H]. discriminate.
  - apply (proj2 (sync_differs_from_async_only_on_bun_linux
                    (Samples.bun_on "linux") Samples.start
                    (VString (js "my-service")))
             eq_refl eq_refl (js "my-service") eq_refl).
Defined.

(* ================================================================== *)
(** ** The cosmetic write of [process.argv0] *)

Lemma detectRuntime_with_argv0_assign (h : Host) (f : JSString -> bool) :
  detectRuntime (with_argv0_assign h f) = detectRuntime h.
Proof. reflexivity. Qed.

Lemma detectPlatform_with_argv0_assign (h : Host) (f : JSString -> bool) :
  detectPlatform (with_argv0_assign h f) = detectPlatform h.
Proof. reflexivity. Qed.

(** C9.  Whether [process.argv0 = name] succeeds or throws changes
    nothing that the caller receives: for every string, under any two
    behaviours [f] and [g] of that write on an otherwise identical host,
    [setProcessName] returns one and the same record without throwing, and
    so does [setProcessNameSync]; the title, the cached library handle and
    the requests made are the same too. *)
Theorem argv0_write_is_cosmetic
    (h : Host) (f g : JSString -> bool) (w : World) (s : JSString) :
  (exists r w1 w2,
      setProcessName (with_argv0_assign h f) (VString s) w = (Normal r, w1)
      /\ setProcessName (with_argv0_assign h g) (VString s) w = (Normal r, w2)
      /\ title w1 = title w2
      /\ denoLibcHandle w1 = denoLibcHandle w2
      /\ trace w1 = trace w2)
  /\ (exists r w1 w2,
      setProcessNameSync (with_argv0_assign h f) (VString s) w = (Normal r, w1)
      /\ setProcessNameSync (with_argv0_assign h g) (VString s) w = (Normal r, w2)
      /\ title w1 = title w2
      /\ denoLibcHandle w1 = denoLibcHandle w2
      /\ trace w1 = trace w2).
Proof.
  split.
  - unfold setProcessName.
    rewrite !detectRuntime_with_argv0_assign, !detectPlatform_with_argv0_assign.
    destruct (detectPlatform h === js "linux") eqn:Hp;
      destruct (detectRuntime h) eqn:Hr; cbn [Runtime.eqb];
      unfold setProcessNameLinuxBunFFI, setProcessNameLinuxDenoFFI;
      destruct (process h) eqn:Hproc; run; try congruence;
      do 3 eexists; repeat split; reflexivity.
  - unfold setProcessNameSync.
    rewrite !detectRuntime_with_argv0_assign, !detectPlatform_with_argv0_assign.
    destruct (detectPlatform h === js "linux") eqn:Hp;
      destruct (detectRuntime h) eqn:Hr; cbn [Runtime.eqb andb];
      unfold setProcessNameLinuxDenoFFI;
      destruct (process h) eqn:Hproc; run; try congruence;
      do 3 eexists; repeat split; reflexivity.
Qed.

(* ================================================================== *)
(** ** [detectPlatform] *)

Lemma platform_of_to_string (p : Platform.t) :
  Platform.of_string (Platform.to_string p) = Some p.
Proof. destruct p; reflexivity. Qed.

(** Under Deno with [Deno.build], the answer is one of the four documented
    values: an unrecognized [Deno.build.os] becomes ['unknown']. *)
Lemma detectPlatform_deno_documented (h : Host) (d : DenoNS.t) (b : DenoNS.build_t) :
  Deno h = Some d -> DenoNS.build d = Some b ->
  Platform.of_string (detectPlatform h) <> None.
Proof.
  intros Hd Hb. unfold detectPlatform. rewrite Hd, Hb. cbv zeta.
  repeat match goal with
         | |- context [if ?c then _ else _] => destruct c
         end; vm_compute; discriminate.
Qed.

(** Otherwise the answer is ['unknown'] or [process.platform] as it is. *)
Lemma detectPlatform_cases (h : Host) :
  Platform.of_string (detectPlatform h) <> None
  \/ exists p, process h = Some p
               /\ Process.platform p = Some (detectPlatform h).
Proof.
  assert (P : Platform.of_string (process_platform h) <> None
              \/ exists p, process h = Some p
                           /\ Process.platform p = Some (process_platform h)).
  { unfold process_platform. destruct (process h) as [p|].
    - destruct (Process.platform p) as [[|c s]|] eqn:E.
      + left. vm_compute. discriminate.
      + right. eauto.
      + left. vm_compute. discriminate.
    - left. vm_compute. discriminate. }
  unfold detectPlatform.
  destruct (Deno h) as [d|] eqn:Hd; [|exact P].
  destruct (DenoNS.build d) as [b|] eqn:Hb; [|exact P].
  left. pose proof (detectPlatform_deno_documented h d b Hd Hb) as Q.
  unfold detectPlatform in Q. now rewrite Hd, Hb in Q.
Qed.

(** C8.  [detectPlatform] is a total function that always returns a
    string, but not always one of the four documented values: under
    Node.js on FreeBSD, where [process.platform] is ['freebsd'], it returns
    ['freebsd'], which is none of ['linux'], ['darwin'], ['win32'],
    ['unknown']. *)
Theorem detectPlatform_returns_freebsd :
  detectPlatform (Samples.node_on "freebsd") = js "freebsd"
  /\ Platform.of_string (detectPlatform (Samples.node_on "freebsd")) = None.
Proof. split; reflexivity. Qed.

(* ================================================================== *)
(** ** The buffer handed to [prctl] *)

Lemma slice_0_15 (s : JSString) : slice s 0 15 = firstn 15 s.
Proof.
  unfold slice. cbn [Z.ltb Z.compare].
  rewrite (Z.min_l 0) by lia. rewrite Z.sub_0_r. cbn [Z.to_nat skipn].
  destruct (Z.le_gt_cases 15 (Z.of_nat (List.length s))) as [H|H].
  - rewrite Z.min_l, Z.max_l by lia. reflexivity.
  - rewrite Z.min_r, Z.max_l by lia. rewrite Nat2Z.id.
    rewrite firstn_all. symmetry. apply firstn_all2. lia.
Qed.

Lemma utf8_encode_ascii (s : JSString) :
  is_ascii s = true -> utf8_encode s = s.
Proof.
  induction s as [|c s IH]; [reflexivity|].
  unfold is_ascii. cbn [forallb]. fold (is_ascii s).
  intros H. apply andb_true_iff in H as [Hc Hs].
  apply andb_true_iff in Hc as [_ Hc].
  cbn [utf8_encode]. rewrite Hc. now rewrite IH.
Qed.

Lemma is_ascii_app (a b : JSString) :
  is_ascii (a ++ b) = is_ascii a && is_ascii b.
Proof. apply forallb_app. Qed.

Lemma prctl_buffer_short (name : JSString) :
  (List.length name <= 15)%nat -> prctl_buffer name = utf8_encode (name ++ NUL).
Proof.
  intros H. unfold prctl_buffer. now rewrite slice_0_15, firstn_all2.
Qed.

Lemma prctl_buffer_long (name : JSString) :
  prctl_buffer name = utf8_encode (firstn 15 name ++ NUL).
Proof. unfold prctl_buffer. now rewrite slice_0_15. Qed.

Lemma prctl_buffer_ascii (name : JSString) :
  is_ascii (firstn 15 name) = true ->
  prctl_buffer name = firstn 15 name ++ [0]
  /\ (List.length (prctl_buffer name) <= 16)%nat.
Proof.
  intros H. rewrite prctl_buffer_long.
  rewrite utf8_encode_ascii by (rewrite is_ascii_app, H; reflexivity).
  split; [reflexivity|].
  rewrite length_app, length_firstn. unfold NUL. cbn [List.length]. lia.
Qed.

(** What [setProcessNameLinuxBunFFI] asks of the host. *)
Lemma setProcessNameLinuxBunFFI_requests (h : Host) (name : JSString) (w : World) :
  exists evs,
    requests w (snd (setProcessNameLinuxBunFFI h name w)) evs
    /\ (forall op buf, In (Prctl op buf) evs ->
          op = PR_SET_NAME /\ buf = prctl_buffer name)
    /\ (bun_ffi_import h = true -> bun_dlopen h = true ->
        In (Prctl PR_SET_NAME (prctl_buffer name)) evs).
Proof.
  unfold setProcessNameLinuxBunFFI, prctl_buffer. run;
    eexists; (split; [solve_requests|]); cbn;
    (split;
     [ intros op buf HIn;
       repeat destruct HIn as [HIn|HIn];
       try discriminate; try contradiction;
       inversion HIn; subst; auto
     | intros; try discriminate; auto ]).
Qed.

(** What [setProcessNameLinuxDenoFFI] asks of the host. *)
Lemma setProcessNameLinuxDenoFFI_requests (h : Host) (name : JSString) (w : World) :
  exists evs,
    requests w (snd (setProcessNameLinuxDenoFFI h name w)) evs
    /\ (forall op buf, In (Prctl op buf) evs ->
          op = PR_SET_NAME /\ buf = prctl_buffer name)
    /\ (denoLibcHandle w <> None \/ deno_dlopen h = true ->
        In (Prctl PR_SET_NAME (prctl_buffer name)) evs).
Proof.
  unfold setProcessNameLinuxDenoFFI, prctl_buffer. run;
    eexists; (split; [solve_requests|]); cbn;
    (split;
     [ intros op buf HIn;
       repeat destruct HIn as [HIn|HIn];
       try discriminate; try contradiction;
       inversion HIn; subst; auto
     | intros [?|?]; try discriminate; try congruence; auto ]).
Qed.

(** C3.  The buffer handed to [prctl] is not kept within 16 bytes.  For
    the name made of fifteen [U+00E9], which has 15 characters,
    [setProcessName] on Linux under Bun and [setProcessNameSync] on Linux
    under Deno hand [prctl] the whole name and the terminator in 31 bytes,
    although the source gives the 16 bytes that [PR_SET_NAME] accepts as
    the reason for cutting the name. *)
Theorem non_ascii_name_exceeds_16_bytes :
  let name := repeat 0xE9 15 in
  (List.length name <= 15)%nat
  /\ (exists r w' buf,
        setProcessName (Samples.bun_on "linux") (VString name) Samples.start
        = (Normal r, w')
        /\ In (Prctl PR_SET_NAME buf) (trace w')
        /\ buf = utf8_encode (name ++ NUL)
        /\ List.length buf = 31%nat
        /\ ~ (List.length buf <= 16)%nat)
  /\ (exists r w' buf,
        setProcessNameSync (Samples.deno_on "linux") (VString name)
          Samples.start = (Normal r, w')
        /\ In (Prctl PR_SET_NAME buf) (trace w')
        /\ buf = utf8_encode (name ++ NUL)
        /\ List.length buf = 31%nat
        /\ ~ (List.length buf <= 16)%nat).
Proof.
  cbv zeta. split; [vm_compute; lia|].
  split; do 3 eexists; (split; [reflexivity|]);
    (split; [cbn; do 3 right; left; reflexivity|]);
    (split; [reflexivity|]); (split; [reflexivity|]);
    change (~ (31 <= 16)%nat); lia.
Qed.

(** What either applier hands to [prctl] goes with the opcode
    [PR_SET_NAME] and is the UTF-8 encoding of the name's first 15 UTF-16
    code units followed by the terminator: the whole name when it has 15
    code units or fewer, exactly its first 15 when it has 16 or more.
    When those code units are ASCII the buffer is these code units and a
    zero byte, at most 16 bytes in all. *)
Lemma native_buffer_holds_first_15_code_units
    (h : Host) (name : JSString) (w : World)
    (evs : list Event) (op : Z) (buf : list Z) :
  requests w (snd (setProcessNameLinuxBunFFI h name w)) evs
  \/ requests w (snd (setProcessNameLinuxDenoFFI h name w)) evs ->
  In (Prctl op buf) evs ->
  op = PR_SET_NAME
  /\ ((List.length name <= 15)%nat -> buf = utf8_encode (name ++ NUL))
  /\ ((16 <= List.length name)%nat ->
      buf = utf8_encode (firstn 15 name ++ NUL)
      /\ List.length (firstn 15 name) = 15%nat)
  /\ (is_ascii (firstn 15 name) = true ->
      buf = firstn 15 name ++ [0] /\ (List.length buf <= 16)%nat).
Proof.
  intros Hreq HIn.
  assert (E : op = PR_SET_NAME /\ buf = prctl_buffer name).
  { destruct Hreq as [Hreq|Hreq].
    - destruct (setProcessNameLinuxBunFFI_requests h name w)
        as (evs' & Hreq' & Hall & _).
      unfold requests in *. rewrite Hreq in Hreq'.
      apply app_inv_head in Hreq'. subst evs'. now apply Hall.
    - destruct (setProcessNameLinuxDenoFFI_requests h name w)
        as (evs' & Hreq' & Hall & _).
      unfold requests in *. rewrite Hreq in Hreq'.
      apply app_inv_head in Hreq'. subst evs'. now apply Hall. }
  destruct E as [-> ->]. split; [reflexivity|].
  split; [apply prctl_buffer_short|].
  split.
  - intros Hlen. split; [apply prctl_buffer_long|].
    rewrite length_firstn. lia.
  - apply prctl_buffer_ascii.
Qed.

Lemma native_buffer_holds_first_15_code_units_witness :
  let name := js "abcdefghijklmnopqrstuvwxyz" in
  let buf := js "abcdefghijklmno" ++ [0] in
  In (Prctl PR_SET_NAME buf)
     (trace (snd (setProcessNameLinuxBunFFI (Samples.bun_on "linux")
                    name Samples.start)))
  /\ buf = utf8_encode (firstn 15 name ++ NUL)
  /\ (List.length buf <= 16)%nat.
Proof.
  cbv zeta.
  assert (HIn : In (Prctl PR_SET_NAME (js "abcdefghijklmno" ++ [0]))
                   (trace (snd (setProcessNameLinuxBunFFI
                                  (Samples.bun_on "linux")
                                  (js "abcdefghijklmnopqrstuvwxyz")
                                  Samples.start)))).
  { cbn. right. left. reflexivity. }
  split; [exact HIn|].
  destruct (native_buffer_holds_first_15_code_units
              (Samples.bun_on "linux") (js "abcdefghijklmnopqrstuvwxyz")
              Samples.start _ PR_SET_NAME (js "abcdefghijklmno" ++ [0])
              (or_introl eq_refl) HIn)
    as (_ & _ & Hlong & Hascii).
  split.
  - apply Hlong. cbn. lia.
  - apply Hascii. reflexivity.
Defined.

(* ================================================================== *)
(** ** Further properties of the detectors *)

(** X1.  [detectPlatform] never returns the empty string: an empty or
    absent [process.platform] is replaced by ['unknown']. *)
Theorem detectPlatform_never_empty (h : Host) : detectPlatform h <> [].
Proof.
  assert (P : process_platform h <> []).
  { unfold process_platform. destruct (process h) as [p|].
    - destruct (Process.platform p) as [[|c s]|]; vm_compute; discriminate.
    - vm_compute; discriminate. }
  unfold detectPlatform.
  destruct (Deno h) as [d|]; [|exact P].
  destruct (DenoNS.build d) as [b|]; [|exact P]. cbv zeta.
  repeat match goal with
         | |- context [if ?c then _ else _] => destruct c
         end; vm_compute; discriminate.
Qed.

(** X2.  Under Deno with [Deno.build], [detectPlatform] answers from
    [Deno.build.os] alone, whatever [process.platform] holds: the answer
    is one of the four documented values, it is ['win32'] exactly when the
    os is ['windows'], and ['linux'] and ['darwin'] exactly when the os is
    that. *)
Theorem detectPlatform_under_deno (h : Host) (d : DenoNS.t) (b : DenoNS.build_t) :
  Deno h = Some d -> DenoNS.build d = Some b ->
  (exists p, detectPlatform h = Platform.to_string p)
  /\ (detectPlatform h = js "linux" <-> DenoNS.os b = js "linux")
  /\ (detectPlatform h = js "darwin" <-> DenoNS.os b = js "darwin")
  /\ (detectPlatform h = js "win32" <-> DenoNS.os b = js "windows").
Proof.
  intros Hd Hb. unfold detectPlatform. rewrite Hd, Hb. cbv zeta.
  destruct (DenoNS.os b === js "linux") eqn:E1.
  { apply str_eqb_eq in E1. rewrite E1.
    split; [now exists Platform.linux|].
    repeat split; intros; try reflexivity; discriminate. }
  destruct (DenoNS.os b === js "darwin") eqn:E2.
  { apply str_eqb_eq in E2. rewrite E2.
    split; [now exists Platform.darwin|].
    repeat split; intros; try reflexivity; discriminate. }
  destruct (DenoNS.os b === js "windows") eqn:E3.
  { apply str_eqb_eq in E3. rewrite E3.
    split; [now exists Platform.win32|].
    repeat split; intros; try reflexivity; discriminate. }
  assert (N1 : DenoNS.os b <> js "linux")
    by (intros E; apply str_eqb_eq in E; congruence).
  assert (N2 : DenoNS.os b <> js "darwin")
    by (intros E; apply str_eqb_eq in E; congruence).
  assert (N3 : DenoNS.os b <> js "windows")
    by (intros E; apply str_eqb_eq in E; congruence).
  split; [now exists Platform.unknown|].
  repeat split; intros; try discriminate; contradiction.
Qed.

Lemma detectPlatform_under_deno_witness :
  detectPlatform (Samples.deno_on "windows") = js "win32" <->
  js "windows" = js "windows".
Proof.
  exact (proj2 (proj2 (proj2
           (detectPlatform_under_deno (Samples.deno_on "windows")
              _ _ eq_refl eq_refl)))).
Defined.

Lemma detectRuntime_process (h : Host) :
  detectRuntime h = Runtime.node \/ detectRuntime h = Runtime.bun ->
  process h <> None.
Proof.
  unfold detectRuntime, process_version.
  destruct (Deno h); [intros [?|?]; discriminate|].
  destruct (process h); [discriminate|].
  intros [?|?]; discriminate.
Qed.

(** The [processTitle] field in closed form. *)
Lemma setProcessName_processTitle (h : Host) (s : JSString) (w w' : World) (r : t) :
  setProcessName h (VString s) w = (Normal r, w')
  \/ setProcessNameSync h (VString s) w = (Normal r, w') ->
  processTitle r
  = match process h with
    | Some _ =>
        Some match title_assign h (title w) s with
             | Normal t => title_is t s
             | Throw _ => false
             end
    | None => None
    end.
Proof.
  intros [H|H]; revert H.
  - unfold setProcessName.
    destruct (detectPlatform h === js "linux") eqn:Hp;
      destruct (detectRuntime h) eqn:Hr; cbn [Runtime.eqb];
      unfold setProcessNameLinuxBunFFI, setProcessNameLinuxDenoFFI;
      destruct (process h) eqn:Hproc; run;
      intros H; inversion H; subst; reflexivity.
  - unfold setProcessNameSync.
    destruct (detectPlatform h === js "linux") eqn:Hp;
      destruct (detectRuntime h) eqn:Hr; cbn [Runtime.eqb andb];
      unfold setProcessNameLinuxDenoFFI;
      destruct (process h) eqn:Hproc; run;
      intros H; inversion H; subst; reflexivity.
Qed.

(* ================================================================== *)
(** ** Further properties of the records *)

(** X3.  Under Node.js and under Bun the title mechanism is always
    attempted: a runtime detected as ['node'] or ['bun'] has a [process],
    so [processTitle] is never [null] in the record of either entry
    point. *)
Theorem title_attempted_on_node_and_bun
    (h : Host) (v : JSValue) (w w' : World) (r : t) :
  detectRuntime h = Runtime.node \/ detectRuntime h = Runtime.bun ->
  setProcessName h v w = (Normal r, w')
  \/ setProcessNameSync h v w = (Normal r, w') ->
  processTitle r <> None.
Proof.
  intros Hr H. apply detectRuntime_process in Hr.
  assert (exists s, v = VString s) as [s ->].
  { destruct H as [H|H];
      [eapply setProcessName_normal_string | eapply setProcessNameSync_normal_string];
      exact H. }
  rewrite (setProcessName_processTitle h s w w' r H).
  destruct (process h); [discriminate | congruence].
Qed.

Lemma title_attempted_on_node_and_bun_witness :
  exists r w',
    setProcessNameSync (Samples.bun_on "darwin") (VString (js "worker-1"))
      Samples.start = (Normal r, w')
    /\ processTitle r <> None.
Proof.
  do 2 eexists. split; [reflexivity|].
  eapply (title_attempted_on_node_and_bun (Samples.bun_on "darwin")
            (VString (js "worker-1")) Samples.start).
  - right. reflexivity.
  - right. reflexivity.
Defined.

(** X4.  When [getCapabilities().canSetTitle] is [true], a call of either
    entry point with a string attempts the title mechanism:
    [processTitle] is not [null]. *)
Theorem canSetTitle_implies_title_attempted
    (h : Host) (s : JSString) (w w' : World) (r : t) :
  Capabilities.canSetTitle (getCapabilities h w) = true ->
  setProcessName h (VString s) w = (Normal r, w')
  \/ setProcessNameSync h (VString s) w = (Normal r, w') ->
  processTitle r <> None.
Proof.
  intros Hc H. rewrite (setProcessName_processTitle h s w w' r H).
  unfold getCapabilities in Hc. cbn in Hc.
  destruct (process h); [discriminate | discriminate].
Qed.

Lemma canSetTitle_implies_title_attempted_witness :
  exists r w',
    setProcessName (Samples.deno_on "darwin") (VString (js "worker-1"))
      Samples.start = (Normal r, w')
    /\ processTitle r <> None.
Proof.
  do 2 eexists. split; [reflexivity|].
  eapply (canSetTitle_implies_title_attempted (Samples.deno_on "darwin")
            (js "worker-1") Samples.start).
  - reflexivity.
  - left. reflexivity.
Defined.

(** X5.  [processTitle] is [Some true] exactly when there is a [process],
    the assignment to [process.title] returns and the title then reads
    back equal to the name; it is [Some false] when the assignment throws
    or the title reads back different (a host that cuts the title, say),
    and [null] exactly when there is no [process]. *)
Theorem processTitle_reports_read_back
    (h : Host) (s : JSString) (w w' : World) (r : t) :
  setProcessName h (VString s) w = (Normal r, w')
  \/ setProcessNameSync h (VString s) w = (Normal r, w') ->
  (processTitle r = Some true <->
   process h <> None /\ title_assign h (title w) s = Normal (Some s))
  /\ (processTitle r = Some false <->
      process h <> None /\ title_assign h (title w) s <> Normal (Some s))
  /\ (processTitle r = None <-> process h = None).
Proof.
  intros H. rewrite (setProcessName_processTitle h s w w' r H).
  destruct (process h) as [p|].
  - destruct (title_assign h (title w) s) as [[t|]|e]; cbn.
    + unfold str_eqb. destruct (list_eq_dec Z.eq_dec t s) as [->|N].
      * repeat split; intros; try discriminate; try congruence.
        destruct H0 as [_ H0]. congruence.
      * repeat split; intros; try discriminate; try congruence.
        destruct H0 as [_ H0]. congruence.
    + repeat split; intros; try discriminate; try congruence.
      destruct H0 as [_ H0]. congruence.
    + repeat split; intros; try discriminate; try congruence.
      destruct H0 as [_ H0]. congruence.
  - repeat split; intros; try discriminate; try congruence; tauto.
Qed.

Lemma processTitle_reports_read_back_witness :
  exists r w',
    setProcessName FailingSamples.node_short_titles
      (VString (js "my-service")) Samples.start = (Normal r, w')
    /\ processTitle r = Some false
    /\ title w' = Some (js "my-s").
Proof.
  do 2 eexists. split; [reflexivity|]. split; [|reflexivity].
  eapply (proj1 (proj2 (processTitle_reports_read_back
                          FailingSamples.node_short_titles (js "my-service")
                          Samples.start _ _ (or_introl eq_refl)))).
  split; cbn; discriminate.
Defined.

(** X6.  The diagnostic fields agree across the module: whatever the
    names and the states of the world, the records of
    [setProcessNameSync] and of [setProcessName] and the answer of
    [getCapabilities] carry the same [runtime] and [platform], those of
    [detectRuntime] and [detectPlatform]. *)
Theorem diagnostic_fields_agree
    (h : Host) (v1 v2 : JSValue) (w1 w1' w2 w2' w3 : World) (r1 r2 : t) :
  setProcessNameSync h v1 w1 = (Normal r1, w1') ->
  setProcessName h v2 w2 = (Normal r2, w2') ->
  runtime r1 = detectRuntime h
  /\ platform r1 = detectPlatform h
  /\ runtime r2 = runtime r1
  /\ platform r2 = platform r1
  /\ Capabilities.runtime (getCapabilities h w3) = runtime r1
  /\ Capabilities.platform (getCapabilities h w3) = platform r1.
Proof.
  intros H1 H2.
  destruct (setProcessNameSync_normal_string _ _ _ _ _ H1) as [s1 ->].
  destruct (setProcessName_normal_string _ _ _ _ _ H2) as [s2 ->].
  apply setProcessNameSync_inv in H1 as (R1 & P1 & _).
  apply setProcessName_inv in H2 as (R2 & P2 & _).
  cbn. rewrite R1, P1, R2, P2. repeat split; reflexivity.
Qed.

Lemma diagnostic_fields_agree_witness :
  exists r1 w1 r2 w2,
    setProcessNameSync (Samples.bun_on "linux")
      (VString (js "consistency-test")) Samples.start = (Normal r1, w1)
    /\ setProcessName (Samples.bun_on "linux")
         (VString (js "consistency-test")) Samples.start = (Normal r2, w2)
    /\ runtime r2 = runtime r1
    /\ platform r2 = platform r1.
Proof.
  do 4 eexists. split; [reflexivity|]. split; [reflexivity|].
  refine (let P := diagnostic_fields_agree (Samples.bun_on "linux")
                     (VString (js "consistency-test"))
                     (VString (js "consistency-test"))
                     Samples.start _ Samples.start _ Samples.start _ _
                     eq_refl eq_refl in
          conj (proj1 (proj2 (proj2 P)))
               (proj1 (proj2 (proj2 (proj2 P))))).
Defined.

(* ================================================================== *)
(** ** Further properties of the native appliers *)

(** Settle an equivalence between the value returned and the answers of
    the host, once the run has been split into cases. *)
Ltac settle_status :=
  repeat match goal with
         | |- context [?a =? 0] =>
             let E := fresh "E" in
             destruct (a =? 0) eqn:E;
             [apply Z.eqb_eq in E; subst | apply Z.eqb_neq in E]
         end;
  (split;
   [ split;
     [ intros ?; try discriminate; repeat split; auto; try congruence;
       try (left; congruence)
     | intros ?;
       repeat match goal with
              | H : _ /\ _ |- _ => destruct H
              | H : _ \/ _ |- _ => destruct H
              end;
       try discriminate; try congruence; auto ]
   | auto ]).

(** X7.  [setProcessNameLinuxBunFFI] returns [true] exactly when the
    import of [bun:ffi] resolves, [dlopen] returns, [prctl] answers 0 and
    [libc.close()] returns; in every other case, a throwing [close] after
    a successful [prctl] included, it returns [false]. *)
Theorem setProcessNameLinuxBunFFI_true_iff
    (h : Host) (name : JSString) (w : World) :
  (fst (setProcessNameLinuxBunFFI h name w) = Normal true <->
   bun_ffi_import h = true
   /\ bun_dlopen h = true
   /\ libc_prctl h PR_SET_NAME (prctl_buffer name) = Normal 0
   /\ bun_close h = true)
  /\ (fst (setProcessNameLinuxBunFFI h name w) = Normal true
      \/ fst (setProcessNameLinuxBunFFI h name w) = Normal false).
Proof.
  unfold setProcessNameLinuxBunFFI, prctl_buffer. run; settle_status.
Qed.

(** X8.  [setProcessNameLinuxDenoFFI] returns [true] exactly when a
    library handle is cached or [Deno.dlopen] returns, and [prctl]
    answers 0; otherwise it returns [false]. *)
Theorem setProcessNameLinuxDenoFFI_true_iff
    (h : Host) (name : JSString) (w : World) :
  (fst (setProcessNameLinuxDenoFFI h name w) = Normal true <->
   (denoLibcHandle w <> None \/ deno_dlopen h = true)
   /\ libc_prctl h PR_SET_NAME (prctl_buffer name) = Normal 0)
  /\ (fst (setProcessNameLinuxDenoFFI h name w) = Normal true
      \/ fst (setProcessNameLinuxDenoFFI h name w) = Normal false).
Proof.
  unfold setProcessNameLinuxDenoFFI, prctl_buffer. run; settle_status.
Qed.

(** A call of the Deno applier with a cached handle loads nothing. *)
Lemma setProcessNameLinuxDenoFFI_cached (h : Host) (name : JSString) (w : World) :
  denoLibcHandle w <> None ->
  exists evs,
    requests w (snd (setProcessNameLinuxDenoFFI h name w)) evs
    /\ ~ In Dlopen evs
    /\ denoLibcHandle (snd (setProcessNameLinuxDenoFFI h name w))
       = denoLibcHandle w.
Proof.
  intros Hc. unfold setProcessNameLinuxDenoFFI. run; try congruence;
    eexists; (split; [solve_requests|]); cbn;
    (split; [|congruence]);
    intros HIn; repeat destruct HIn as [HIn|HIn];
    try discriminate; try contradiction.
Qed.

(** A call of the Deno applier leaves a handle behind when it had one or
    could load one. *)
Lemma setProcessNameLinuxDenoFFI_caches (h : Host) (name : JSString) (w : World) :
  denoLibcHandle w <> None \/ deno_dlopen h = true ->
  denoLibcHandle (snd (setProcessNameLinuxDenoFFI h name w)) <> None.
Proof.
  intros Hc. unfold setProcessNameLinuxDenoFFI. run;
    try discriminate; destruct Hc; congruence.
Qed.

(** X9.  Deno's library is loaded at most once: when a handle is cached
    or [Deno.dlopen] works, the first call of
    [setProcessNameLinuxDenoFFI] leaves a handle in [denoLibcHandle], and
    the next call, whatever its name, makes no [dlopen] request and keeps
    that handle. *)
Theorem deno_library_loaded_once (h : Host) (n1 n2 : JSString) (w : World) :
  denoLibcHandle w <> None \/ deno_dlopen h = true ->
  let w1 := snd (setProcessNameLinuxDenoFFI h n1 w) in
  let w2 := snd (setProcessNameLinuxDenoFFI h n2 w1) in
  denoLibcHandle w1 <> None
  /\ denoLibcHandle w2 = denoLibcHandle w1
  /\ exists evs, requests w1 w2 evs /\ ~ In Dlopen evs.
Proof.
  intros Hc w1 w2.
  assert (H1 : denoLibcHandle w1 <> None)
    by now apply setProcessNameLinuxDenoFFI_caches.
  destruct (setProcessNameLinuxDenoFFI_cached h n2 w1 H1)
    as (evs & Hreq & Hno & Hsame).
  split; [exact H1|]. split; [exact Hsame|]. eauto.
Qed.

Lemma deno_library_loaded_once_witness :
  let w1 := snd (setProcessNameLinuxDenoFFI (Samples.deno_on "linux")
                   (js "first") Samples.start) in
  let w2 := snd (setProcessNameLinuxDenoFFI (Samples.deno_on "linux")
                   (js "second") w1) in
  denoLibcHandle w1 <> None
  /\ denoLibcHandle w2 = denoLibcHandle w1
  /\ exists evs, requests w1 w2 evs /\ ~ In Dlopen evs.
Proof.
  apply (deno_library_loaded_once (Samples.deno_on "linux")
           (js "first") (js "second") Samples.start).
  right. reflexivity.
Defined.

(** X10.  A failed load is not cached: with no handle and a throwing
    [Deno.dlopen], [setProcessNameLinuxDenoFFI] returns [false] after the
    one [dlopen] request, calls [prctl] not at all and leaves
    [denoLibcHandle] at [null], so that the next call tries to load
    again. *)
Theorem deno_failed_load_is_retried (h : Host) (n1 n2 : JSString) (w : World) :
  denoLibcHandle w = None -> deno_dlopen h = false ->
  setProcessNameLinuxDenoFFI h n1 w = (Normal false, with_event w Dlopen)
  /\ setProcessNameLinuxDenoFFI h n2 (with_event w Dlopen)
     = (Normal false, with_event (with_event w Dlopen) Dlopen).
Proof.
  intros Hn Hd. unfold setProcessNameLinuxDenoFFI. unfold_monad. cbn.
  rewrite Hn, Hd. split; reflexivity.
Qed.

Lemma deno_failed_load_is_retried_witness :
  setProcessNameLinuxDenoFFI FailingSamples.deno_without_ffi (js "first")
    Samples.start
  = (Normal false, with_event Samples.start Dlopen)
  /\ setProcessNameLinuxDenoFFI FailingSamples.deno_without_ffi (js "second")
       (with_event Samples.start Dlopen)
     = (Normal false, with_event (with_event Samples.start Dlopen) Dlopen).
Proof.
  apply (deno_failed_load_is_retried FailingSamples.deno_without_ffi
           (js "first") (js "second") Samples.start); reflexivity.
Defined.

(** X11.  Bun's library is opened on every call for which [bun:ffi] can
    be imported, and closed only when [prctl] returned: when [dlopen] or
    [prctl] throws, no [close] is requested.  The call never touches
    [denoLibcHandle]. *)
Theorem bun_library_closed_iff_prctl_returns
    (h : Host) (name : JSString) (w : World) :
  exists evs,
    requests w (snd (setProcessNameLinuxBunFFI h name w)) evs
    /\ (In Dlopen evs <-> bun_ffi_import h = true)
    /\ (In LibClose evs <->
        bun_ffi_import h = true /\ bun_dlopen h = true
        /\ exists status,
             libc_prctl h PR_SET_NAME (prctl_buffer name) = Normal status)
    /\ denoLibcHandle (snd (setProcessNameLinuxBunFFI h name w))
       = denoLibcHandle w.
Proof.
  unfold setProcessNameLinuxBunFFI, prctl_buffer. run;
    eexists; (split; [solve_requests|]); cbn;
    (split; [|split; [|reflexivity]]);
    (split;
     [ intros HIn; repeat destruct HIn as [HIn|HIn];
       try discriminate; try contradiction; eauto
     | intros HIn;
       repeat match goal with
              | H : _ /\ _ |- _ => destruct H
              | H : exists _, _ |- _ => destruct H
              end;
       try discriminate; try congruence; auto ]).
Qed.

(* ================================================================== *)
(** ** What the entry points ask of the host *)

(** X12.  A call with a string first asks for the title write and then
    for the [argv0] write, each once, each with the name as given (no
    truncation), also when the title write throws; with no [process] it
    asks for neither.  Everything asked after that is addressed to the
    native facility, and when the record's [prctl] is [null] nothing at
    all is asked of it: no library is loaded off Linux, under Node.js, or
    by the synchronous entry point under Bun. *)
Theorem entry_point_requests
    (h : Host) (s : JSString) (w w' : World) (r : t) :
  setProcessName h (VString s) w = (Normal r, w')
  \/ setProcessNameSync h (VString s) w = (Normal r, w') ->
  exists native,
    requests w w' (title_requests h s ++ native)
    /\ forallb is_native native = true
    /\ (prctl r = None -> native = []).
Proof.
  unfold title_requests. intros [H|H]; revert H.
  - unfold setProcessName.
    destruct (detectPlatform h === js "linux") eqn:Hp;
      destruct (detectRuntime h) eqn:Hr; cbn [Runtime.eqb];
      unfold setProcessNameLinuxBunFFI, setProcessNameLinuxDenoFFI;
      destruct (process h) eqn:Hproc; run;
      intros H; inversion H; subst;
      eexists; (split; [solve_requests|]); cbn;
      (split; [reflexivity|]); intros; try discriminate; reflexivity.
  - unfold setProcessNameSync.
    destruct (detectPlatform h === js "linux") eqn:Hp;
      destruct (detectRuntime h) eqn:Hr; cbn [Runtime.eqb andb];
      unfold setProcessNameLinuxDenoFFI;
      destruct (process h) eqn:Hproc; run;
      intros H; inversion H; subst;
      eexists; (split; [solve_requests|]); cbn;
      (split; [reflexivity|]); intros; try discriminate; reflexivity.
Qed.

Lemma entry_point_requests_witness :
  exists r w' native,
    setProcessNameSync (Samples.bun_on "linux")
      (VString (js "a-name-longer-than-fifteen")) Samples.start
    = (Normal r, w')
    /\ requests Samples.start w'
         ([TitleWrite (js "a-name-longer-than-fifteen");
           Argv0Write (js "a-name-longer-than-fifteen")] ++ native)
    /\ forallb is_native native = true
    /\ (prctl r = None -> native = []).
Proof.
  do 2 eexists.
  refine (let P := entry_point_requests (Samples.bun_on "linux")
                     (js "a-name-longer-than-fifteen") Samples.start _ _
                     (or_intror eq_refl) in
          match P with
          | ex_intro _ native Q => ex_intro _ native (conj eq_refl Q)
          end).
Defined.

(** X13.  The entry points never clear the cached library handle, and
    they set it only on Linux under Deno, when none was cached and
    [Deno.dlopen] returned: in every other case [denoLibcHandle] is after
    the call what it was before. *)
Theorem entry_points_keep_library_handle
    (h : Host) (v : JSValue) (w w' : World) (c : Completion t) :
  setProcessName h v w = (c, w') \/ setProcessNameSync h v w = (c, w') ->
  (denoLibcHandle w <> None -> denoLibcHandle w' = denoLibcHandle w)
  /\ (denoLibcHandle w' <> denoLibcHandle w ->
      detectPlatform h = js "linux"
      /\ detectRuntime h = Runtime.deno
      /\ denoLibcHandle w = None
      /\ deno_dlopen h = true
      /\ denoLibcHandle w' = Some Libc_so_6).
Proof.
  intros [H|H]; revert H.
  - destruct v; try (cbn; intros H; inversion H; subst; split; congruence).
    unfold setProcessName.
    destruct (detectPlatform h === js "linux") eqn:Hp;
      destruct (detectRuntime h) eqn:Hr; cbn [Runtime.eqb];
      unfold setProcessNameLinuxBunFFI, setProcessNameLinuxDenoFFI;
      destruct (process h) eqn:Hproc; run;
      intros H; inversion H; subst; cbn;
      try apply str_eqb_eq in Hp;
      (split;
       [ congruence
       | intros; repeat split; first [assumption | congruence] ]).
  - destruct v; try (cbn; intros H; inversion H; subst; split; congruence).
    unfold setProcessNameSync.
    destruct (detectPlatform h === js "linux") eqn:Hp;
      destruct (detectRuntime h) eqn:Hr; cbn [Runtime.eqb andb];
      unfold setProcessNameLinuxDenoFFI;
      destruct (process h) eqn:Hproc; run;
      intros H; inversion H; subst; cbn;
      try apply str_eqb_eq in Hp;
      (split;
       [ congruence
       | intros; repeat split; first [assumption | congruence] ]).
Qed.

Lemma entry_points_keep_library_handle_witness :
  exists c w',
    setProcessName (Samples.deno_on "linux") (VString (js "my-service"))
      Samples.start = (c, w')
    /\ denoLibcHandle w' = Some Libc_so_6.
Proof.
  do 2 eexists. split; [reflexivity|].
  eapply (proj2 (entry_points_keep_library_handle (Samples.deno_on "linux")
                   (VString (js "my-service")) Samples.start _ _
                   (or_introl eq_refl))).
  cbn. discriminate.
Defined.

(* ================================================================== *)
(** ** Further properties of the buffer *)

(** The encoding of a string followed by the terminator ends with the
    zero byte, and each code unit before it takes at most three bytes. *)
Lemma utf8_encode_terminated (n : nat) (s : JSString) :
  (List.length s <= n)%nat ->
  exists pre,
    utf8_encode (s ++ [0]) = pre ++ [0]
    /\ (List.length pre <= 3 * List.length s)%nat.
Proof.
  revert s. induction n as [|n IH]; intros s Hlen.
  - destruct s; [|cbn in Hlen; lia].
    exists []. split; [reflexivity | cbn; lia].
  - destruct s as [|c rest].
    { exists []. split; [reflexivity | cbn; lia]. }
    cbn [List.length] in Hlen.
    destruct (IH rest ltac:(lia)) as (pre & E & L).
    cbn [app utf8_encode].
    destruct (c <? 128).
    { exists (c :: pre). rewrite E. split; [reflexivity|].
      cbn [List.length]. lia. }
    destruct (c <? 2048).
    { exists (utf8_2 c ++ pre). rewrite E, app_assoc. split; [reflexivity|].
      rewrite length_app. unfold utf8_2. cbn [List.length]. lia. }
    destruct (is_high_surrogate c).
    { destruct rest as [|d rest'].
      - exists replacement_bytes. split; [reflexivity | cbn; lia].
      - cbn [app].
        destruct (is_low_surrogate d).
        + cbn [List.length] in Hlen.
          destruct (IH rest' ltac:(lia)) as (pre' & E' & L').
          exists (utf8_4 c d ++ pre'). rewrite E', app_assoc.
          split; [reflexivity|].
          rewrite length_app. unfold utf8_4. cbn [List.length]. lia.
        + exists (replacement_bytes ++ pre).
          change (d :: rest' ++ [0]) with ((d :: rest') ++ [0]).
          rewrite E, app_assoc. split; [reflexivity|].
          rewrite length_app. unfold replacement_bytes.
          cbn [List.length] in *. lia. }
    destruct (is_low_surrogate c).
    { exists (replacement_bytes ++ pre). rewrite E, app_assoc.
      split; [reflexivity|].
      rewrite length_app. unfold replacement_bytes. cbn [List.length]. lia. }
    exists (utf8_3 c ++ pre). rewrite E, app_assoc. split; [reflexivity|].
    rewrite length_app. unfold utf8_3. cbn [List.length]. lia.
Qed.

Lemma utf8_encode_ascii_app (p q : JSString) :
  is_ascii p = true -> utf8_encode (p ++ q) = p ++ utf8_encode q.
Proof.
  induction p as [|c p IH]; [reflexivity|].
  unfold is_ascii. cbn [forallb]. fold (is_ascii p).
  intros H. apply andb_true_iff in H as [Hc Hp].
  apply andb_true_iff in Hc as [_ Hc].
  cbn [app utf8_encode]. rewrite Hc. now rewrite IH.
Qed.

(** X14.  Whatever the name, the buffer built for [prctl] ends with the
    zero byte and has at least 1 and at most 46 bytes: up to 15 code units
    of at most three bytes each, and the terminator. *)
Theorem prctl_buffer_is_terminated_and_bounded (name : JSString) :
  exists pre,
    prctl_buffer name = pre ++ [0]
    /\ (1 <= List.length (prctl_buffer name) <= 46)%nat.
Proof.
  rewrite prctl_buffer_long.
  destruct (utf8_encode_terminated (List.length (firstn 15 name))
              (firstn 15 name) (le_n _)) as (pre & E & L).
  exists pre. unfold NUL. rewrite E. split; [reflexivity|].
  rewrite length_app. cbn [List.length].
  rewrite length_firstn in L. lia.
Qed.

(** X15.  Truncation can cut a surrogate pair in two: when the first 14
    code units are ASCII and the 15th is a high surrogate, the buffer
    holds these 14 bytes, then EF BF BD (U+FFFD) in place of the cut
    character, then the terminator, 18 bytes in all, whatever follows in
    the name. *)
Theorem truncation_cuts_surrogate_pair (p rest : JSString) (hi : Z) :
  is_ascii p = true -> List.length p = 14%nat ->
  is_high_surrogate hi = true ->
  prctl_buffer (p ++ hi :: rest) = p ++ replacement_bytes ++ [0]
  /\ List.length (prctl_buffer (p ++ hi :: rest)) = 18%nat.
Proof.
  intros Ha Hl Hh.
  assert (E : prctl_buffer (p ++ hi :: rest) = p ++ replacement_bytes ++ [0]).
  { rewrite prctl_buffer_long.
    rewrite firstn_app, Hl. rewrite firstn_all2 by lia.
    change (firstn (15 - 14) (hi :: rest)) with [hi].
    rewrite <- app_assoc. rewrite utf8_encode_ascii_app by exact Ha.
    f_equal. unfold NUL. cbn [app utf8_encode].
    unfold is_high_surrogate in Hh. apply andb_true_iff in Hh as [H1 H2].
    apply Z.leb_le in H1.
    replace (hi <? 128) with false by (symmetry; apply Z.ltb_ge; lia).
    replace (hi <? 2048) with false by (symmetry; apply Z.ltb_ge; lia).
    unfold is_high_surrogate.
    replace (55296 <=? hi) with true by (symmetry; apply Z.leb_le; lia).
    rewrite H2. reflexivity. }
  split; [exact E|].
  rewrite E, !length_app, Hl. reflexivity.
Qed.

Lemma truncation_cuts_surrogate_pair_witness :
  prctl_buffer (js "fourteen-chars" ++ 0xD83D :: [0xDE00])
  = js "fourteen-chars" ++ replacement_bytes ++ [0]
  /\ List.length (prctl_buffer (js "fourteen-chars" ++ 0xD83D :: [0xDE00]))
     = 18%nat.
Proof.
  apply (truncation_cuts_surrogate_pair (js "fourteen-chars") [0xDE00] 0xD83D);
    reflexivity.
Defined.

(* ================================================================== *)
(** ** Repeated calls *)

Lemma same_answers_detect (h1 h2 : Host) (w1 w2 : World) (s : JSString) :
  same_answers h1 h2 w1 w2 s ->
  detectRuntime h2 = detectRuntime h1 /\ detectPlatform h2 = detectPlatform h1.
Proof.
  intros (HD & HP & _).
  unfold detectRuntime, detectPlatform, process_version, process_platform.
  now rewrite HD, HP.
Qed.

(** The outcome of a call depends on the host and on the world only
    through the answers of the facilities and, on Linux under Deno,
    through whether a library is at hand. *)
Lemma outcome_depends_on (h1 h2 : Host) (s : JSString) (w1 w2 : World) :
  same_answers h1 h2 w1 w2 s ->
  (detectPlatform h1 = js "linux" -> detectRuntime h1 = Runtime.deno ->
   (denoLibcHandle w2 <> None \/ deno_dlopen h2 = true <->
    denoLibcHandle w1 <> None \/ deno_dlopen h1 = true)) ->
  fst (setProcessName h2 (VString s) w2) = fst (setProcessName h1 (VString s) w1).
Proof.
  intros Hs Hl.
  destruct (same_answers_detect _ _ _ _ _ Hs) as [ER EP].
  destruct Hs as (HD & HP & Ht & Hi & Ho & Hc & Hp').
  unfold prctl_buffer in Hp'.
  unfold setProcessName. rewrite ER, EP, HP.
  destruct (detectPlatform h1 === js "linux") eqn:Hp;
    [apply str_eqb_eq in Hp|];
    destruct (detectRuntime h1) eqn:Hr; cbn [Runtime.eqb];
    try specialize (Hl Hp eq_refl);
    unfold setProcessNameLinuxBunFFI, setProcessNameLinuxDenoFFI;
    destruct (process h1) eqn:Hproc;
    unfold_monad; cbn; rewrite ?Ht, ?Hi, ?Ho, ?Hc, ?Hp';
    repeat (split_match; cbn);
    try reflexivity; exfalso; intuition congruence.
Qed.

(** On Linux under Deno a call leaves a handle behind exactly when it had
    one or could load one. *)
Lemma deno_handle_after_call (h : Host) (s : JSString) (w w' : World) (r : t) :
  setProcessName h (VString s) w = (Normal r, w') ->
  detectPlatform h = js "linux" -> detectRuntime h = Runtime.deno ->
  (denoLibcHandle w' <> None <->
   denoLibcHandle w <> None \/ deno_dlopen h = true).
Proof.
  intros H Hp Hr. revert H.
  unfold setProcessName. rewrite Hp, Hr, str_eqb_refl. cbn [Runtime.eqb].
  unfold setProcessNameLinuxDenoFFI.
  destruct (process h) eqn:Hproc; run;
    intros H; inversion H; subst; cbn; intuition congruence.
Qed.

(** The title after a call is what the title facility stored, or the
    title before the call when the write threw or there is no
    [process]. *)
Lemma title_after_call (h : Host) (s : JSString) (w w' : World) (r : t) :
  setProcessName h (VString s) w = (Normal r, w')
  \/ setProcessNameSync h (VString s) w = (Normal r, w') ->
  title w'
  = match process h with
    | Some _ =>
        match title_assign h (title w) s with
        | Normal t => t
        | Throw _ => title w
        end
    | None => title w
    end.
Proof.
  intros [H|H]; revert H.
  - unfold setProcessName.
    destruct (detectPlatform h === js "linux") eqn:Hp;
      destruct (detectRuntime h) eqn:Hr; cbn [Runtime.eqb];
      unfold setProcessNameLinuxBunFFI, setProcessNameLinuxDenoFFI;
      destruct (process h) eqn:Hproc; run;
      intros H; inversion H; subst; reflexivity.
  - unfold setProcessNameSync.
    destruct (detectPlatform h === js "linux") eqn:Hp;
      destruct (detectRuntime h) eqn:Hr; cbn [Runtime.eqb andb];
      unfold setProcessNameLinuxDenoFFI;
      destruct (process h) eqn:Hproc; run;
      intros H; inversion H; subst; reflexivity.
Qed.

(** X16.  A second call of [setProcessName] with the same name returns
    the same record and leaves the same title whenever the facilities
    answer it as they answered the first call ([h1] is the host during the
    first call, [h2] during the second) and a load of Deno's library that
    failed during the first call fails again.  A load that worked need not
    work again: the cached handle serves the second call. *)
Theorem repeated_call_same_record
    (h1 h2 : Host) (s : JSString) (w w1 : World) (r : t) :
  setProcessName h1 (VString s) w = (Normal r, w1) ->
  same_answers h1 h2 w w1 s ->
  (denoLibcHandle w = None -> deno_dlopen h1 = false -> deno_dlopen h2 = false) ->
  exists w2,
    setProcessName h2 (VString s) w1 = (Normal r, w2)
    /\ title w2 = title w1.
Proof.
  intros H Hs Hd.
  destruct (setProcessName_string h2 s w1) as (r2 & w2 & E2 & _).
  assert (Ha : fst (setProcessName h2 (VString s) w1)
               = fst (setProcessName h1 (VString s) w)).
  { apply outcome_depends_on; [exact Hs|].
    intros Hp Hr.
    rewrite (deno_handle_after_call h1 s w w1 r H Hp Hr).
    split; [|tauto].
    intros [Hc|Hc]; [exact Hc|].
    destruct (denoLibcHandle w) eqn:Ew; [left; discriminate|].
    destruct (deno_dlopen h1) eqn:Ed; [right; reflexivity|].
    rewrite (Hd eq_refl eq_refl) in Hc. discriminate. }
  rewrite E2, H in Ha. cbn in Ha. inversion Ha; subst r2.
  exists w2. split; [exact E2|].
  pose proof (title_after_call h2 s w1 w2 r (or_introl E2)) as T1.
  pose proof (title_after_call h1 s w w1 r (or_introl H)) as T0.
  destruct Hs as (_ & HP & Ht & _).
  rewrite HP, Ht in T1.
  destruct (process h1); [|congruence].
  destruct (title_assign h1 (title w) s); congruence.
Qed.

Lemma repeated_call_same_record_witness :
  exists r w1 w2,
    setProcessName (Samples.deno_on "linux") (VString (js "my-service"))
      Samples.start = (Normal r, w1)
    /\ setProcessName FailingSamples.deno_ffi_revoked
         (VString (js "my-service")) w1 = (Normal r, w2)
    /\ title w2 = title w1.
Proof.
  do 2 eexists.
  refine (let P := repeated_call_same_record (Samples.deno_on "linux")
                     FailingSamples.deno_ffi_revoked
                     (js "my-service") Samples.start _ _ eq_refl _ _ in
          match P with
          | ex_intro _ w2 Q => ex_intro _ w2 (conj eq_refl Q)
          end).
  - repeat split; reflexivity.
  - intros _ Hd. discriminate Hd.
Defined.

(* ================================================================== *)
(** ** The native step seen from the entry points *)

(** The [prctl] requests of a call, and the one behind a reported
    success. *)
Lemma entry_point_prctl_requests
    (h : Host) (s : JSString) (w w' : World) (r : t) :
  setProcessName h (VString s) w = (Normal r, w')
  \/ setProcessNameSync h (VString s) w = (Normal r, w') ->
  exists evs,
    requests w w' evs
    /\ (forall op buf, In (Prctl op buf) evs ->
          op = PR_SET_NAME /\ buf = prctl_buffer s)
    /\ (prctl r = Some true -> In (Prctl PR_SET_NAME (prctl_buffer s)) evs).
Proof.
  unfold prctl_buffer. intros [H|H]; revert H.
  - unfold setProcessName.
    destruct (detectPlatform h === js "linux") eqn:Hp;
      destruct (detectRuntime h) eqn:Hr; cbn [Runtime.eqb];
      unfold setProcessNameLinuxBunFFI, setProcessNameLinuxDenoFFI;
      destruct (process h) eqn:Hproc; run;
      intros H; inversion H; subst;
      eexists; (split; [solve_requests|]); cbn;
      (split;
       [ intros op buf HIn; repeat destruct HIn as [HIn|HIn];
         try discriminate; try contradiction;
         inversion HIn; subst; auto
       | intros Ht; try discriminate; auto 10 ]).
  - unfold setProcessNameSync.
    destruct (detectPlatform h === js "linux") eqn:Hp;
      destruct (detectRuntime h) eqn:Hr; cbn [Runtime.eqb andb];
      unfold setProcessNameLinuxDenoFFI;
      destruct (process h) eqn:Hproc; run;
      intros H; inversion H; subst;
      eexists; (split; [solve_requests|]); cbn;
      (split;
       [ intros op buf HIn; repeat destruct HIn as [HIn|HIn];
         try discriminate; try contradiction;
         inversion HIn; subst; auto
       | intros Ht; try discriminate; auto 10 ]).
Qed.

(** X17.  Every [prctl] request that a call of either entry point makes
    carries the opcode [PR_SET_NAME] and the buffer built from the name
    the caller gave: the UTF-8 encoding of the whole name and the
    terminator when the name has 15 code units or fewer, of exactly its
    first 15 code units and the terminator when it has 16 or more, at most
    16 bytes when those code units are ASCII.  A record whose [prctl] is
    [true] comes with such a request. *)
Theorem entry_points_hand_name_to_prctl
    (h : Host) (s : JSString) (w w' : World) (r : t) (evs : list Event) :
  setProcessName h (VString s) w = (Normal r, w')
  \/ setProcessNameSync h (VString s) w = (Normal r, w') ->
  requests w w' evs ->
  (forall op buf, In (Prctl op buf) evs ->
     op = PR_SET_NAME
     /\ buf = utf8_encode (slice s 0 15 ++ NUL)
     /\ ((List.length s <= 15)%nat -> buf = utf8_encode (s ++ NUL))
     /\ ((16 <= List.length s)%nat ->
         buf = utf8_encode (firstn 15 s ++ NUL)
         /\ List.length (firstn 15 s) = 15%nat)
     /\ (is_ascii (firstn 15 s) = true ->
         buf = firstn 15 s ++ [0] /\ (List.length buf <= 16)%nat))
  /\ (prctl r = Some true ->
      In (Prctl PR_SET_NAME (utf8_encode (slice s 0 15 ++ NUL))) evs).
Proof.
  intros H Hreq.
  destruct (entry_point_prctl_requests h s w w' r H)
    as (evs' & Hreq' & Hall & Hsome).
  unfold requests in *. rewrite Hreq in Hreq'.
  apply app_inv_head in Hreq'. subst evs'.
  split; [|exact Hsome].
  intros op buf HIn. destruct (Hall op buf HIn) as [-> ->].
  split; [reflexivity|]. split; [reflexivity|].
  split; [apply prctl_buffer_short|].
  split.
  - intros Hlen. split; [apply prctl_buffer_long|].
    rewrite length_firstn. lia.
  - apply prctl_buffer_ascii.
Qed.

Lemma entry_points_hand_name_to_prctl_witness :
  exists r w',
    setProcessName (Samples.bun_on "linux")
      (VString (js "abcdefghijklmnopqrstuvwxyz")) Samples.start
    = (Normal r, w')
    /\ In (Prctl PR_SET_NAME (js "abcdefghijklmno" ++ [0])) (trace w')
    /\ (List.length (js "abcdefghijklmno" ++ [0%Z]) <= 16)%nat.
Proof.
  do 2 eexists. split; [reflexivity|].
  refine (let P := entry_points_hand_name_to_prctl (Samples.bun_on "linux")
                     (js "abcdefghijklmnopqrstuvwxyz") Samples.start _ _ _
                     (or_introl eq_refl) eq_refl in
          let HIn := proj2 P eq_refl in
          conj HIn
               (proj2 (proj2 (proj2 (proj2 (proj2 (proj1 P _ _ HIn))))
                         eq_refl))).
Defined.

(** Settle, case by case, when the [prctl] field is [Some true]. *)
Ltac settle_prctl_field :=
  repeat match goal with
         | |- context [?a =? 0] =>
             let E := fresh "E" in
             destruct (a =? 0) eqn:E;
             [apply Z.eqb_eq in E; subst | apply Z.eqb_neq in E]
         end;
  intuition (try discriminate; try congruence).

(** X18.  The [prctl] field reports what the native call answered for the
    name given.  From [setProcessName] it is [true] exactly when the
    platform is Linux and either the runtime is Bun, [bun:ffi] is
    imported, [dlopen] and [close] return and [prctl] answers 0 for the
    buffer of the name, or the runtime is Deno, a library is cached or
    [Deno.dlopen] returns, and [prctl] answers 0 for that buffer.  From
    [setProcessNameSync] it is [true] exactly in the Deno case. *)
Theorem prctl_field_reports_status (h : Host) (s : JSString) (w : World) :
  (forall r w',
      setProcessName h (VString s) w = (Normal r, w') ->
      (prctl r = Some true <->
       detectPlatform h = js "linux"
       /\ ((detectRuntime h = Runtime.bun
            /\ bun_ffi_import h = true
            /\ bun_dlopen h = true
            /\ libc_prctl h PR_SET_NAME (prctl_buffer s) = Normal 0
            /\ bun_close h = true)
           \/ (detectRuntime h = Runtime.deno
               /\ (denoLibcHandle w <> None \/ deno_dlopen h = true)
               /\ libc_prctl h PR_SET_NAME (prctl_buffer s) = Normal 0))))
  /\ (forall r w',
      setProcessNameSync h (VString s) w = (Normal r, w') ->
      (prctl r = Some true <->
       detectPlatform h = js "linux"
       /\ detectRuntime h = Runtime.deno
       /\ (denoLibcHandle w <> None \/ deno_dlopen h = true)
       /\ libc_prctl h PR_SET_NAME (prctl_buffer s) = Normal 0)).
Proof.
  unfold prctl_buffer. split; intros r w'.
  - unfold setProcessName.
    remember (js "linux") as L eqn:HL. clear HL.
    destruct (detectPlatform h === L) eqn:Hp;
      [ apply str_eqb_eq in Hp
      | assert (Np : detectPlatform h <> L)
          by (intros E; apply str_eqb_eq in E; congruence) ];
      destruct (detectRuntime h) eqn:Hr; cbn [Runtime.eqb];
      unfold setProcessNameLinuxBunFFI, setProcessNameLinuxDenoFFI;
      destruct (process h) eqn:Hproc; run;
      intros H; inversion H; subst; cbn; settle_prctl_field.
  - unfold setProcessNameSync.
    remember (js "linux") as L eqn:HL. clear HL.
    destruct (detectPlatform h === L) eqn:Hp;
      [ apply str_eqb_eq in Hp
      | assert (Np : detectPlatform h <> L)
          by (intros E; apply str_eqb_eq in E; congruence) ];
      destruct (detectRuntime h) eqn:Hr; cbn [Runtime.eqb andb];
      unfold setProcessNameLinuxDenoFFI;
      destruct (process h) eqn:Hproc; run;
      intros H; inversion H; subst; cbn; settle_prctl_field.
Qed.

Lemma prctl_field_reports_status_witness :
  (exists r w',
      setProcessName (Samples.bun_on "linux") (VString (js "my-service"))
        Samples.start = (Normal r, w')
      /\ prctl r = Some true)
  /\ (exists r w',
      setProcessName FailingSamples.bun_prctl_throws
        (VString (js "my-service")) Samples.start = (Normal r, w')
      /\ processTitle r = Some true
      /\ prctl r <> Some true).
Proof.
  split.
  - do 2 eexists. split; [reflexivity|].
    apply (proj2 (proj1 (prctl_field_reports_status
                           (Samples.bun_on "linux") (js "my-service")
                           Samples.start) _ _ eq_refl)).
    split; [reflexivity|]. left. repeat split; reflexivity.
  - do 2 eexists. split; [reflexivity|]. split; [reflexivity|].
    intros Hp.
    apply (proj1 (proj1 (prctl_field_reports_status
                           FailingSamples.bun_prctl_throws (js "my-service")
                           Samples.start) _ _ eq_refl)) in Hp.
    destruct Hp as (_ & [(_ & _ & _ & Hs & _) | (Hr & _)]); discriminate.
Defined.
